(** * The hypersphere and its Riemannian metric

    A shallow embedding of [geomstats/hypersphere.py]: the manifold
    [Hypersphere] (membership, projection, coordinate changes, sampling)
    and [HypersphereMetric] (squared norm, exponential, logarithm,
    geodesic distance).

    Arithmetic is exact on finite numbers and follows IEEE-754 on the
    special values: a number is a real, an infinity or NaN.  Rounding,
    overflow and the sign of zero are not represented. *)

From Stdlib Require Import String.
From Stdlib Require Import Reals Lra Lia List Bool Arith.
Import ListNotations.
Open Scope R_scope.

(** ** Numbers *)

Inductive num : Type :=
| Fin (r : R)
| PInf
| NInf
| NaN.

Definition Rleb (a b : R) : bool := if Rle_dec a b then true else false.
Definition Rltb (a b : R) : bool := if Rlt_dec a b then true else false.
Definition Reqb (a b : R) : bool := if Req_dec_T a b then true else false.

Definition inf_of_sign (positive : bool) : num :=
  if positive then PInf else NInf.

Definition nopp (x : num) : num :=
  match x with
  | Fin a => Fin (- a)
  | PInf => NInf
  | NInf => PInf
  | NaN => NaN
  end.

Definition nadd (x y : num) : num :=
  match x, y with
  | NaN, _ | _, NaN => NaN
  | Fin a, Fin b => Fin (a + b)
  | PInf, NInf | NInf, PInf => NaN
  | PInf, _ | _, PInf => PInf
  | NInf, _ | _, NInf => NInf
  end.

Definition nsub (x y : num) : num := nadd x (nopp y).

Definition nmul (x y : num) : num :=
  match x, y with
  | NaN, _ | _, NaN => NaN
  | Fin a, Fin b => Fin (a * b)
  | Fin a, PInf | PInf, Fin a =>
      if Reqb a 0 then NaN else inf_of_sign (Rltb 0 a)
  | Fin a, NInf | NInf, Fin a =>
      if Reqb a 0 then NaN else inf_of_sign (Rltb a 0)
  | PInf, PInf | NInf, NInf => PInf
  | PInf, NInf | NInf, PInf => NInf
  end.

(** Division of arrays never raises: [0/0] is NaN and [a/0] an infinity
    (zero counts as [+0]). *)
Definition ndiv (x y : num) : num :=
  match x, y with
  | NaN, _ | _, NaN => NaN
  | Fin a, Fin b =>
      if Reqb b 0
      then (if Reqb a 0 then NaN else inf_of_sign (Rltb 0 a))
      else Fin (a / b)
  | Fin _, PInf | Fin _, NInf => Fin 0
  | PInf, Fin b => inf_of_sign (Rleb 0 b)
  | NInf, Fin b => inf_of_sign (Rltb b 0)
  | PInf, PInf | PInf, NInf | NInf, PInf | NInf, NInf => NaN
  end.

(** [x ** k] for a literal exponent [k]. *)
Fixpoint npow (x : num) (k : nat) : num :=
  match k with
  | O => Fin 1
  | S k' => nmul x (npow x k')
  end.

Definition nabs (x : num) : num :=
  match x with
  | Fin a => Fin (Rabs a)
  | PInf | NInf => PInf
  | NaN => NaN
  end.

Definition nsqrt (x : num) : num :=
  match x with
  | Fin a => if Rltb a 0 then NaN else Fin (sqrt a)
  | PInf => PInf
  | NInf | NaN => NaN
  end.

Definition ncos (x : num) : num :=
  match x with Fin a => Fin (cos a) | _ => NaN end.

Definition nsin (x : num) : num :=
  match x with Fin a => Fin (sin a) | _ => NaN end.

(** At a pole the tangent is infinite. *)
Definition ntan (x : num) : num :=
  match x with
  | Fin a => if Reqb (cos a) 0 then inf_of_sign (Rltb 0 (sin a))
             else Fin (tan a)
  | _ => NaN
  end.

Definition narccos (x : num) : num :=
  match x with
  | Fin a => if Rleb (-1) a && Rleb a 1 then Fin (acos a) else NaN
  | _ => NaN
  end.

Definition nexp (x : num) : num :=
  match x with
  | Fin a => Fin (exp a)
  | PInf => PInf
  | NInf => Fin 0
  | NaN => NaN
  end.

Definition nlog (x : num) : num :=
  match x with
  | Fin a => if Rltb a 0 then NaN
             else if Reqb a 0 then NInf else Fin (ln a)
  | PInf => PInf
  | NInf | NaN => NaN
  end.

(** Comparisons are false on NaN. *)
Definition nle (x y : num) : bool :=
  match x, y with
  | NaN, _ | _, NaN => false
  | Fin a, Fin b => Rleb a b
  | NInf, _ | _, PInf => true
  | _, _ => false
  end.

(** ** The array backend [gs]

    [geomstats/backend] is not part of the sources: its functions are
    taken with the meaning of the NumPy functions of the same names.
    Arrays of the same batch are combined row by row; the batches that
    meet in one operation have the same number of rows. *)

Section ZipWith.
Context {A B C : Type} (f : A -> B -> C).

Fixpoint zip_with (l : list A) (m : list B) : list C :=
  match l, m with
  | a :: l', b :: m' => f a b :: zip_with l' m'
  | _, _ => []
  end.
End ZipWith.

(** An array of no axis (a number alone, of shape [()]), of one axis (a
    point) or of two (a batch of [rows], each of [ncols] entries). *)
Inductive ndarray : Type :=
| Arr0 (x : num)
| Arr1 (v : list num)
| Arr2 (ncols : nat) (rows : list (list num)).

(** [a.ndim] *)
Definition ndim (a : ndarray) : nat :=
  match a with
  | Arr0 _ => 0
  | Arr1 _ => 1
  | Arr2 _ _ => 2
  end.

(** [a.shape[-1]] on an array of at least one axis.  The shape of an
    array of no axis is empty and has no last entry: the code that reads
    it there raises (see [belongs]); where such an array is promoted to a
    batch, it counts as one row of one entry. *)
Definition shape_last (a : ndarray) : nat :=
  match a with
  | Arr0 _ => 1
  | Arr1 v => length v
  | Arr2 k _ => k
  end.

(** Modelled from the spec: [gs.to_ndarray(a, to_ndim=2)], the promotion
    of a single point to a batch of size 1. *)
Definition to_ndarray_2 (a : ndarray) : ndarray :=
  match a with
  | Arr0 x => Arr2 1 [[x]]
  | Arr1 v => Arr2 (length v) [v]
  | Arr2 k rows => Arr2 k rows
  end.

(** The rows of an array, a point counting as a single row. *)
Definition rows_of (a : ndarray) : list (list num) :=
  match a with
  | Arr0 x => [[x]]
  | Arr1 v => [v]
  | Arr2 _ rows => rows
  end.

(** Modelled from the spec: [gs.einsum('ni,nj->nj', coef, m)] for a column
    [coef]; row [n] of [m] is scaled by entry [n] of [coef]. *)
Definition einsum_ni_nj (coef : list num) (m : list (list num))
  : list (list num) :=
  zip_with (fun c row => map (nmul c) row) coef m.

(** [a + b] and [a - b] on two batches. *)
Definition mat_add (a b : list (list num)) : list (list num) :=
  zip_with (zip_with nadd) a b.

Definition mat_sub (a b : list (list num)) : list (list num) :=
  zip_with (zip_with nsub) a b.

(** [m / col]: every row divided by its entry of the column. *)
Definition mat_div_col (m : list (list num)) (col : list num)
  : list (list num) :=
  zip_with (fun row d => map (fun x => ndiv x d) row) m col.

(** [col * m]: every row multiplied by its entry of the column. *)
Definition col_mul_mat (col : list num) (m : list (list num))
  : list (list num) :=
  zip_with (fun c row => map (nmul c) row) col m.

(** Modelled from the spec: [gs.clip(x, lo, hi)], which guards the cosine
    against leaving [[lo, hi]]; it is [minimum(maximum(x, lo), hi)]. *)
Definition clip (x : num) (lo hi : R) : num :=
  match x with
  | Fin a => Fin (Rmin (Rmax a lo) hi)
  | PInf => Fin hi
  | NInf => Fin (Rmin lo hi)
  | NaN => NaN
  end.

Definition ISCLOSE_RTOL : R := 1e-5.
Definition ISCLOSE_ATOL : R := 1e-8.

(** Modelled from the spec: [gs.isclose(a, b)], the near-zero test of
    [log], with NumPy's default tolerances:
    [|a - b| <= atol + rtol * |b|]. *)
Definition isclose (a : num) (b : R) : bool :=
  match a with
  | Fin x => Rleb (Rabs (x - b)) (ISCLOSE_ATOL + ISCLOSE_RTOL * Rabs b)
  | _ => false
  end.

(** Modelled from the spec: [gs.cast(mask, gs.float32)], a mask as an
    array of zeros and ones. *)
Definition cast_float (b : bool) : num := if b then Fin 1 else Fin 0.

Definition sum_sq (v : list num) : num :=
  fold_right nadd (Fin 0) (map (fun x => nmul x x) v).

(** Modelled from the spec: [gs.linalg.norm(a, axis=-1)], the norm of
    each row. *)
Definition linalg_norm (a : ndarray) : list num :=
  map (fun row => nsqrt (sum_sq row)) (rows_of a).

(** Modelled from the spec: [gs.boolean_mask(col, mask)], the entries of
    [col] that the mask selects. *)
Fixpoint boolean_mask (col : list num) (mask : list bool) : list num :=
  match col, mask with
  | x :: col', b :: mask' =>
      if b then x :: boolean_mask col' mask' else boolean_mask col' mask'
  | _, _ => []
  end.

(** Python's [a / b] on two floats. *)
Definition py_div (a b : R) : R + unit :=
  if Reqb b 0 then inr tt else inl (a / b).

(** What [belongs] hands back: the Python constant [False], or an array
    of booleans, one per point of the batch. *)
Inductive pybools : Type :=
| PyBool (b : bool)
| BoolArr (bs : list bool).

(** Modelled from the spec: [gs.all]. *)
Definition gs_all (x : pybools) : bool :=
  match x with
  | PyBool b => b
  | BoolArr bs => forallb (fun b => b) bs
  end.

(** [a is b] on integers: the interpreter keeps a single object for each
    integer from -5 to 256, and builds a fresh one for any other value, so
    the dimension read from a shape is identical to a stored dimension
    only in that range. *)
Definition SMALL_INT_MAX : nat := 256.

Definition py_is (a b : nat) : bool :=
  Nat.eqb a b && Nat.leb a SMALL_INT_MAX.

(** ** Effects: logged warnings and raised exceptions *)

Inductive exn : Type :=
| AssertionError
| IndexError
| NotImplementedError (msg : string)
| ZeroDivisionError.

Inductive result (A : Type) : Type :=
| Return (a : A)
| Raise (e : exn).
Arguments Return {A} a.
Arguments Raise {A} e.

(** A computation yields the warnings it logged and its result. *)
Definition py (A : Type) : Type := (list string * result A)%type.

Definition ret {A} (a : A) : py A := ([], Return a).
Definition raise {A} (e : exn) : py A := ([], Raise e).
Definition logging_warning (msg : string) : py unit := ([msg], Return tt).

Definition bind {A B} (m : py A) (k : A -> py B) : py B :=
  match m with
  | (w, Return a) => let (w', r) := k a in (w ++ w', r)
  | (w, Raise e) => (w, Raise e)
  end.

Notation "x <- m ;; k" := (bind m (fun x => k))
  (at level 61, m at next level, right associativity).
Notation "m ;;; k" := (bind m (fun _ => k))
  (at level 61, right associativity).

Definition warnings {A} (m : py A) : list string := fst m.
Definition outcome {A} (m : py A) : result A := snd m.

(** ** The ambient Euclidean metric *)

Module EuclideanMetric.

(** Modelled from the spec: [geomstats/euclidean_space.py] is not part
    of the sources; the ambient metric provides the inner product, the
    norm and the squared norm of the standard Euclidean bilinear form,
    batched over the leading axis (one entry per row).  [dot] is that
    bilinear form on one row. *)
Definition dot (a b : list num) : num :=
  fold_right nadd (Fin 0) (zip_with nmul a b).

(** Modelled from the spec: [inner_product(a, b)], batched; a single
    vector counts as a batch of one. *)
Definition inner_product (a b : ndarray) : list num :=
  zip_with dot (rows_of (to_ndarray_2 a)) (rows_of (to_ndarray_2 b)).

(** Modelled from the spec: [squared_norm(v)], batched. *)
Definition squared_norm (v : ndarray) : list num :=
  inner_product v v.

(** Modelled from the spec: [norm(v)], batched. *)
Definition norm (v : ndarray) : list num :=
  map nsqrt (squared_norm v).

End EuclideanMetric.

(** ** Module constants *)

Definition TOLERANCE : R := 1e-6.
Definition EPSILON : R := 1e-8.

Definition COS_TAYLOR_COEFFS : list R :=
  [1; 0; - 1 / INR (fact 2); 0; 1 / INR (fact 4); 0;
   - 1 / INR (fact 6); 0; 1 / INR (fact 8); 0].

Definition INV_SIN_TAYLOR_COEFFS : list R :=
  [0; 1 / 6; 0; 7 / 360; 0; 31 / 15120; 0; 127 / 604800].

Definition INV_TAN_TAYLOR_COEFFS : list R :=
  [0; - 1 / 3; 0; - 1 / 45; 0; - 2 / 945; 0; - 1 / 4725].

(** [coeffs[i]] *)
Definition coeff (coeffs : list R) (i : nat) : num := Fin (nth i coeffs 0).

(** ** Hypersphere *)

Definition intrinsic_warning : string :=
  "Use the extrinsic coordinates to represent points on the hypersphere.".

Definition von_mises_fisher_message : string :=
  "Sampling from the von Mises Fisher distributionis only implemented in dimension 2.".

Module Hypersphere.
Section WithDimension.

(** [self.dimension], a positive integer. *)
Variable dimension : nat.

(** [point.shape[-1]] raises [IndexError] on an array of no axis, whose
    shape is the empty tuple. *)
Definition belongs (point : ndarray) (tolerance : R) : py pybools :=
  match point with
  | Arr0 _ => raise IndexError
  | _ =>
      let point_dim := shape_last point in
      if negb (point_dim =? dimension + 1)%nat then
        (if py_is point_dim dimension
         then logging_warning intrinsic_warning
         else ret tt) ;;;
        ret (PyBool false)
      else
        let sq_norm := EuclideanMetric.squared_norm point in
        let diff := map (fun x => nabs (nsub x (Fin 1))) sq_norm in
        ret (BoolArr (map (fun d => nle d (Fin tolerance)) diff))
  end.

Definition projection (point : ndarray) : ndarray :=
  let point := to_ndarray_2 point in
  let norm := EuclideanMetric.norm point in
  let projected_point := mat_div_col (rows_of point) norm in
  Arr2 (shape_last point) projected_point.

Definition regularize (point : ndarray) : py ndarray :=
  b <- belongs point TOLERANCE ;;
  if gs_all b then ret (projection point) else raise AssertionError.

Definition projection_to_tangent_space (vector base_point : ndarray)
  : ndarray :=
  let vector := to_ndarray_2 vector in
  let base_point := to_ndarray_2 base_point in
  let sq_norm := EuclideanMetric.squared_norm base_point in
  let inner_prod := EuclideanMetric.inner_product base_point vector in
  let coef := zip_with ndiv inner_prod sq_norm in
  let tangent_vec :=
    mat_sub (rows_of vector) (einsum_ni_nj coef (rows_of base_point)) in
  Arr2 (shape_last vector) tangent_vec.

Definition intrinsic_to_extrinsic_coords (point_intrinsic : ndarray)
  : ndarray :=
  let point_intrinsic := to_ndarray_2 point_intrinsic in
  let coord_0 :=
    map (fun nrm => nsqrt (nsub (Fin 1) (npow nrm 2)))
        (linalg_norm point_intrinsic) in
  let point_extrinsic := zip_with cons coord_0 (rows_of point_intrinsic) in
  Arr2 (1 + shape_last point_intrinsic) point_extrinsic.

Definition extrinsic_to_intrinsic_coords (point_extrinsic : ndarray)
  : ndarray :=
  let point_extrinsic := to_ndarray_2 point_extrinsic in
  let point_intrinsic := map (@tl num) (rows_of point_extrinsic) in
  Arr2 (shape_last point_extrinsic - 1) point_intrinsic.

(** [draws] is the array that [gs.random.rand(n_samples, dimension)]
    returned: [n_samples] rows of [dimension] numbers of [[0, 1)]. *)
Definition random_uniform (draws : list (list R)) : ndarray :=
  let point :=
    Arr2 dimension
         (map (map (fun u => nsub (Fin u) (Fin 0.5))) draws) in
  let point := intrinsic_to_extrinsic_coords point in
  point.

(** [angle_draws] and [scalar_draws] are the arrays that the two calls
    of [gs.random.rand(n_samples)] returned, in this order. *)
Definition random_von_mises_fisher
           (kappa : R) (angle_draws scalar_draws : list R) : py ndarray :=
  if negb (dimension =? 2)%nat then
    raise (NotImplementedError von_mises_fisher_message)
  else
    let angle := map (fun u => nmul (Fin (2 * PI)) (Fin u)) angle_draws in
    let unit_vector := map (fun a => [ncos a; nsin a]) angle in
    let scalar := map Fin scalar_draws in
    match py_div 1 kappa with
    | inr _ => raise ZeroDivisionError
    | inl inv_kappa =>
        let coord_z :=
          map (fun s =>
                 nadd (Fin 1)
                      (nmul (Fin inv_kappa)
                            (nlog (nadd s (nmul (nsub (Fin 1) s)
                                                (nexp (Fin (-2 * kappa))))))))
              scalar in
        let coord_xy :=
          col_mul_mat
            (map (fun z => nsqrt (nsub (Fin 1) (npow z 2))) coord_z)
            unit_vector in
        let point := zip_with (fun xy z => xy ++ [z]) coord_xy coord_z in
        ret (Arr2 3 point)
    end.

End WithDimension.
End Hypersphere.

(** ** HypersphereMetric *)

Module HypersphereMetric.

Definition squared_norm (vector : ndarray) (base_point : option ndarray)
  : list num :=
  let sq_norm := EuclideanMetric.squared_norm vector in
  sq_norm.

Definition exp (tangent_vec base_point : ndarray) : ndarray :=
  let tangent_vec := to_ndarray_2 tangent_vec in
  let base_point := to_ndarray_2 base_point in
  let norm_tangent_vec :=
    map (fun x => nadd x (Fin EPSILON)) (EuclideanMetric.norm tangent_vec) in
  let coef_1 := map ncos norm_tangent_vec in
  let coef_2 := zip_with ndiv (map nsin norm_tangent_vec) norm_tangent_vec in
  let exp :=
    mat_add (einsum_ni_nj coef_1 (rows_of base_point))
            (einsum_ni_nj coef_2 (rows_of tangent_vec)) in
  Arr2 (shape_last base_point) exp.

(** [1. + coeffs[1] * angle ** 2 + coeffs[3] * angle ** 4
       + coeffs[5] * angle ** 6 + coeffs[7] * angle ** 8] *)
Definition taylor_even (coeffs : list R) (angle : num) : num :=
  nadd (nadd (nadd (nadd (Fin 1)
                         (nmul (coeff coeffs 1) (npow angle 2)))
                   (nmul (coeff coeffs 3) (npow angle 4)))
             (nmul (coeff coeffs 5) (npow angle 6)))
       (nmul (coeff coeffs 7) (npow angle 8)).

(** The line printing the shape of [coef_1] writes to the standard output
    only and is left out. *)
Definition log (point base_point : ndarray) : ndarray :=
  let point := to_ndarray_2 point in
  let base_point := to_ndarray_2 base_point in
  let norm_base_point := EuclideanMetric.norm base_point in
  let norm_point := EuclideanMetric.norm point in
  let inner_prod := EuclideanMetric.inner_product base_point point in
  let cos_angle :=
    zip_with ndiv inner_prod (zip_with nmul norm_base_point norm_point) in
  let cos_angle := map (fun c => clip c (-1) 1) cos_angle in
  let angle := map narccos cos_angle in
  let mask_0 := map (fun a => isclose a 0) angle in
  let mask_else := map (fun m => Bool.eqb m false) mask_0 in
  let mask_0_float := map cast_float mask_0 in
  let mask_else_float := map cast_float mask_else in
  let angle_0 := boolean_mask angle mask_0 in
  let n_angle_0 := length angle_0 in
  let angle_else := boolean_mask angle mask_else in
  let n_angle_else := length angle_else in
  let coef_1 := map (fun _ => Fin 0) angle in
  let coef_2 := map (fun _ => Fin 0) angle in
  let coef_1 :=
    zip_with nadd coef_1
             (zip_with nmul mask_0_float
                       (map (taylor_even INV_SIN_TAYLOR_COEFFS) angle)) in
  let coef_2 :=
    zip_with nadd coef_2
             (zip_with nmul mask_0_float
                       (map (taylor_even INV_TAN_TAYLOR_COEFFS) angle)) in
  let coef_1 :=
    zip_with nadd coef_1
             (zip_with ndiv (zip_with nmul mask_else_float angle)
                       (map nsin angle)) in
  let coef_2 :=
    zip_with nadd coef_2
             (zip_with ndiv (zip_with nmul mask_else_float angle)
                       (map ntan angle)) in
  let log :=
    mat_sub (einsum_ni_nj coef_1 (rows_of point))
            (einsum_ni_nj coef_2 (rows_of base_point)) in
  Arr2 (shape_last point) log.

Definition dist (point_a point_b : ndarray) : list num :=
  let norm_a := EuclideanMetric.norm point_a in
  let norm_b := EuclideanMetric.norm point_b in
  let inner_prod := EuclideanMetric.inner_product point_a point_b in
  let cos_angle := zip_with ndiv inner_prod (zip_with nmul norm_a norm_b) in
  let cos_angle := map (fun c => clip c (-1) 1) cos_angle in
  let dist := map narccos cos_angle in
  dist.

End HypersphereMetric.

(** ** Vocabulary of the statements *)

(** Vectors of reals and their embedding as arrays of finite numbers. *)
Definition Rdot (a b : list R) : R :=
  fold_right Rplus 0 (zip_with Rmult a b).

Definition fins (a : list R) : list num := map Fin a.

(** The angle that [log] and [dist] compute for one point and one base
    point. *)
Definition angle_of (point base_point : list num) : num :=
  narccos
    (clip (ndiv (EuclideanMetric.dot base_point point)
                (nmul (nsqrt (EuclideanMetric.dot base_point base_point))
                      (nsqrt (EuclideanMetric.dot point point))))
          (-1) 1).

(** The two coefficients of [log] at one angle, as the successive
    updates of [coef_1] and [coef_2] leave them. *)
Definition log_coef_1 (angle : num) : num :=
  nadd (nadd (Fin 0)
             (nmul (cast_float (isclose angle 0))
                   (HypersphereMetric.taylor_even INV_SIN_TAYLOR_COEFFS angle)))
       (ndiv (nmul (cast_float (Bool.eqb (isclose angle 0) false)) angle)
             (nsin angle)).

Definition log_coef_2 (angle : num) : num :=
  nadd (nadd (Fin 0)
             (nmul (cast_float (isclose angle 0))
                   (HypersphereMetric.taylor_even INV_TAN_TAYLOR_COEFFS angle)))
       (ndiv (nmul (cast_float (Bool.eqb (isclose angle 0) false)) angle)
             (ntan angle)).

(** The truncated Taylor polynomials of [x / sin x] and [x / tan x]. *)
Definition inv_sin_taylor (x : R) : R :=
  1 + x ^ 2 / 6 + 7 * x ^ 4 / 360 + 31 * x ^ 6 / 15120
  + 127 * x ^ 8 / 604800.

Definition inv_tan_taylor (x : R) : R :=
  1 - x ^ 2 / 3 - x ^ 4 / 45 - 2 * x ^ 6 / 945 - x ^ 8 / 4725.

(** [clip] on a real. *)
Definition Rclip (x lo hi : R) : R := Rmin (Rmax x lo) hi.

(** The cosine and the angle between two vectors of reals. *)
Definition Rcos_angle (point base_point : list R) : R :=
  Rclip (Rdot base_point point
         / (sqrt (Rdot base_point base_point) * sqrt (Rdot point point)))
        (-1) 1.

Definition Rangle (point base_point : list R) : R :=
  acos (Rcos_angle point base_point).

Definition Rnorm (a : list R) : R := sqrt (Rdot a a).


(** The exponential with the shifted norm in the cosine, the sine and the
    division. *)
Definition exp_shifted_norm (v p : list R) : list R :=
  zip_with (fun pi vi =>
              cos (Rnorm v + EPSILON) * pi
              + sin (Rnorm v + EPSILON) / (Rnorm v + EPSILON) * vi)
           p v.




(** A vector of reals divided by its norm. *)
Definition Rnormalize (r : list R) : list R :=
  map (fun x => x / Rnorm r) r.

(** The intrinsic coordinates that [random_uniform] makes of one row of
    draws, and their lift to extrinsic coordinates. *)
Definition Rshift (d : list R) : list R := map (fun u => u - 0.5) d.

Definition Rlift (x : list R) : list R := sqrt (1 - Rnorm x ^ 2) :: x.

(** Linear combinations and distances of vectors of reals. *)
Definition Rlincomb (a b : R) (x y : list R) : list R :=
  zip_with (fun xi yi => a * xi + b * yi) x y.

Definition Rdist (x y : list R) : R := Rnorm (zip_with Rminus x y).

(** The coefficients of [log] at a real angle that is not zero: the
    Taylor polynomials up to the [isclose] threshold, the closed forms
    beyond it. *)
Definition Rlog_coef_1 (angle : R) : R :=
  if Rleb angle 1e-8 then inv_sin_taylor angle else angle / sin angle.

Definition Rlog_coef_2 (angle : R) : R :=
  if Rleb angle 1e-8 then inv_tan_taylor angle
  else angle * cos angle / sin angle.

(** A number that is neither an infinity nor NaN. *)
Definition finite (x : num) : Prop :=
  match x with Fin _ => True | _ => False end.

(** * Properties *)

(** ** Booleans of the reals *)

Lemma Rleb_true (a b : R) : a <= b -> Rleb a b = true.
Proof. intros H; unfold Rleb; destruct (Rle_dec a b); [reflexivity | contradiction]. Qed.

Lemma Rleb_false (a b : R) : b < a -> Rleb a b = false.
Proof. intros H; unfold Rleb; destruct (Rle_dec a b); [lra | reflexivity]. Qed.

Lemma Rltb_true (a b : R) : a < b -> Rltb a b = true.
Proof. intros H; unfold Rltb; destruct (Rlt_dec a b); [reflexivity | contradiction]. Qed.

Lemma Rltb_false (a b : R) : b <= a -> Rltb a b = false.
Proof. intros H; unfold Rltb; destruct (Rlt_dec a b); [lra | reflexivity]. Qed.

Lemma Reqb_true (a b : R) : a = b -> Reqb a b = true.
Proof. intros H; unfold Reqb; destruct (Req_dec_T a b); [reflexivity | contradiction]. Qed.

Lemma Reqb_false (a b : R) : a <> b -> Reqb a b = false.
Proof. intros H; unfold Reqb; destruct (Req_dec_T a b); [contradiction | reflexivity]. Qed.

(** Decide the comparisons of a goal whose operands are plain arithmetic. *)
Ltac rbool :=
  repeat match goal with
    | |- context [Rleb ?a ?b] =>
        first [rewrite (Rleb_true a b) by lra | rewrite (Rleb_false a b) by lra]
    | |- context [Rltb ?a ?b] =>
        first [rewrite (Rltb_true a b) by lra | rewrite (Rltb_false a b) by lra]
    | |- context [Reqb ?a ?b] =>
        first [rewrite (Reqb_true a b) by lra | rewrite (Reqb_false a b) by lra]
    end.


(** ** Arithmetic on finite numbers *)

Lemma dot_fins (a b : list R) :
  EuclideanMetric.dot (fins a) (fins b) = Fin (Rdot a b).
Proof.
  revert b; induction a as [|x a IH]; intros [|y b]; try reflexivity.
  unfold EuclideanMetric.dot, Rdot in *; cbn [fins map zip_with fold_right].
  fold (fins a); fold (fins b); rewrite IH; reflexivity.
Qed.

Lemma npow_fin (x : R) (k : nat) : npow (Fin x) k = Fin (x ^ k).
Proof. induction k as [|k IH]; [reflexivity|]; cbn [npow]; rewrite IH; reflexivity. Qed.

Lemma taylor_even_inv_sin (x : R) :
  HypersphereMetric.taylor_even INV_SIN_TAYLOR_COEFFS (Fin x)
  = Fin (inv_sin_taylor x).
Proof.
  unfold HypersphereMetric.taylor_even, coeff, INV_SIN_TAYLOR_COEFFS, inv_sin_taylor.
  rewrite !npow_fin; cbn [nth nmul nadd]; f_equal; lra.
Qed.

Lemma taylor_even_inv_tan (x : R) :
  HypersphereMetric.taylor_even INV_TAN_TAYLOR_COEFFS (Fin x)
  = Fin (inv_tan_taylor x).
Proof.
  unfold HypersphereMetric.taylor_even, coeff, INV_TAN_TAYLOR_COEFFS, inv_tan_taylor.
  rewrite !npow_fin; cbn [nth nmul nadd]; f_equal; lra.
Qed.

(** [log] and [dist] on a single point and a single base point. *)
Lemma log_point (p q : list num) :
  HypersphereMetric.log (Arr1 p) (Arr1 q)
  = Arr2 (length p)
         [zip_with nsub (map (nmul (log_coef_1 (angle_of p q))) p)
                        (map (nmul (log_coef_2 (angle_of p q))) q)].
Proof. reflexivity. Qed.

Lemma dist_point (p q : list num) :
  HypersphereMetric.dist (Arr1 p) (Arr1 q) = [angle_of q p].
Proof. reflexivity. Qed.

Lemma isclose_zero (x : R) : isclose (Fin x) 0 = Rleb (Rabs x) 1e-8.
Proof.
  unfold isclose, ISCLOSE_ATOL, ISCLOSE_RTOL.
  rewrite Rabs_R0, Rminus_0_r.
  replace (1e-8 + 1e-5 * 0) with 1e-8 by lra; reflexivity.
Qed.

(** Exactly at angle zero the closed-form term is [0 * 0 / sin 0], which is
    NaN, and NaN absorbs the Taylor term. *)
Lemma log_coef_1_zero : log_coef_1 (Fin 0) = NaN.
Proof.
  unfold log_coef_1.
  rewrite isclose_zero, Rabs_R0, Rleb_true by lra.
  rewrite taylor_even_inv_sin; cbn [cast_float Bool.eqb nmul nadd nsin ndiv].
  rewrite sin_0; rbool; reflexivity.
Qed.

Lemma log_coef_2_zero : log_coef_2 (Fin 0) = NaN.
Proof.
  unfold log_coef_2.
  rewrite isclose_zero, Rabs_R0, Rleb_true by lra.
  rewrite taylor_even_inv_tan; cbn [cast_float Bool.eqb nmul nadd ntan ndiv].
  rewrite cos_0; rbool.
  unfold tan; rewrite sin_0, cos_0.
  replace (0 / 1) with 0 by lra; rbool; reflexivity.
Qed.

(** Inside the near-zero mask, away from zero itself. *)
Lemma log_coef_1_near (x : R) :
  0 < x <= 1e-8 -> sin x <> 0 -> log_coef_1 (Fin x) = Fin (inv_sin_taylor x).
Proof.
  intros Hx Hs; unfold log_coef_1.
  rewrite isclose_zero, Rabs_pos_eq, Rleb_true by lra.
  rewrite taylor_even_inv_sin; cbn [cast_float Bool.eqb nmul nadd nsin ndiv].
  rewrite (Reqb_false (sin x) 0) by assumption.
  cbn [nadd]; f_equal; field; assumption.
Qed.

Lemma log_coef_1_far (x : R) :
  1e-8 < x -> sin x <> 0 -> log_coef_1 (Fin x) = Fin (x / sin x).
Proof.
  intros Hx Hs; unfold log_coef_1.
  rewrite isclose_zero, Rabs_pos_eq, Rleb_false by lra.
  rewrite taylor_even_inv_sin; cbn [cast_float Bool.eqb nmul nadd nsin ndiv].
  rewrite (Reqb_false (sin x) 0) by assumption.
  cbn [nadd]; f_equal; field; assumption.
Qed.

Lemma log_coef_2_near (x : R) :
  0 < x <= 1e-8 -> log_coef_2 (Fin x) = Fin (inv_tan_taylor x).
Proof.
  intros Hx; unfold log_coef_2.
  assert (HPI : 3 < PI) by (pose proof PI2_3_2; lra).
  assert (Hc : 0 < cos x) by (apply cos_gt_0; lra).
  assert (Hs : 0 < sin x) by (apply sin_gt_0; lra).
  assert (Ht : tan x <> 0).
  { unfold tan; intros H; apply Rmult_integral in H as [H | H]; [lra|].
    apply Rinv_neq_0_compat in H; [exact H | lra]. }
  rewrite isclose_zero, Rabs_pos_eq, Rleb_true by lra.
  rewrite taylor_even_inv_tan; cbn [cast_float Bool.eqb nmul nadd ntan ndiv].
  rewrite (Reqb_false (cos x) 0) by lra.
  cbn [ndiv]; rewrite (Reqb_false (tan x) 0) by assumption.
  cbn [nadd]; f_equal; field; assumption.
Qed.

Lemma log_coef_2_far (x : R) :
  1e-8 < x -> sin x <> 0 -> log_coef_2 (Fin x) = Fin (x * cos x / sin x).
Proof.
  intros Hx Hs; unfold log_coef_2.
  rewrite isclose_zero, Rabs_pos_eq, Rleb_false by lra.
  rewrite taylor_even_inv_tan; cbn [cast_float Bool.eqb nmul nadd ntan].
  destruct (Req_dec_T (cos x) 0) as [Hc | Hc].
  - rewrite (Reqb_true (cos x) 0) by assumption.
    assert (E : ndiv (Fin (1 * x)) (inf_of_sign (Rltb 0 (sin x))) = Fin 0)
      by (destruct (Rltb 0 (sin x)); reflexivity).
    rewrite E; cbn [nadd]; f_equal; rewrite Hc; field; assumption.
  - rewrite (Reqb_false (cos x) 0) by assumption.
    assert (Ht : tan x <> 0).
    { unfold tan; intros H; apply Rmult_integral in H as [H | H]; [lra|].
      apply Rinv_neq_0_compat in H; [exact H | assumption]. }
    cbn [ndiv]; rewrite (Reqb_false (tan x) 0) by assumption.
    cbn [nadd]; f_equal; unfold tan; field; split; assumption.
Qed.

Lemma Rclip_bounds (x lo hi : R) : lo <= hi -> lo <= Rclip x lo hi <= hi.
Proof.
  intros H; unfold Rclip, Rmin, Rmax.
  destruct (Rle_dec x lo); destruct (Rle_dec _ hi); lra.
Qed.

Lemma Rclip_id (x lo hi : R) : lo <= x <= hi -> Rclip x lo hi = x.
Proof.
  intros H; unfold Rclip, Rmin, Rmax.
  destruct (Rle_dec x lo); destruct (Rle_dec _ hi); lra.
Qed.

Lemma angle_of_fins (p q : list R) :
  0 < Rdot p p -> 0 < Rdot q q ->
  angle_of (fins p) (fins q) = Fin (Rangle p q).
Proof.
  intros Hp Hq; unfold angle_of, Rangle, Rcos_angle.
  rewrite !dot_fins; cbn [nsqrt].
  rewrite !Rltb_false by lra; cbn [nmul ndiv].
  assert (0 < sqrt (Rdot q q) * sqrt (Rdot p p))
    by (apply Rmult_lt_0_compat; apply sqrt_lt_R0; assumption).
  rewrite Reqb_false by lra; cbn [clip narccos].
  fold (Rclip (Rdot q p / (sqrt (Rdot q q) * sqrt (Rdot p p))) (-1) 1).
  pose proof (Rclip_bounds (Rdot q p / (sqrt (Rdot q q) * sqrt (Rdot p p)))
                           (-1) 1 ltac:(lra)) as [? ?].
  rewrite !Rleb_true by assumption; reflexivity.
Qed.

(** Evaluate [Rdot] on explicit vectors. *)
Ltac rdot := unfold Rdot; cbn [zip_with fold_right]; try lra.

Lemma Rangle_coincident :
  Rangle [1; 0; 0] [1; 0; 0] = 0.
Proof.
  unfold Rangle, Rcos_angle.
  replace (Rdot [1; 0; 0] [1; 0; 0]) with 1 by rdot.
  rewrite sqrt_1, Rclip_id by lra.
  replace (1 / (1 * 1)) with 1 by lra; apply acos_1.
Qed.

Lemma Rangle_orthogonal :
  Rangle [0; 1; 0] [1; 0; 0] = PI / 2.
Proof.
  unfold Rangle, Rcos_angle.
  replace (Rdot [1; 0; 0] [1; 0; 0]) with 1 by rdot.
  replace (Rdot [0; 1; 0] [0; 1; 0]) with 1 by rdot.
  replace (Rdot [1; 0; 0] [0; 1; 0]) with 0 by rdot.
  rewrite sqrt_1, Rclip_id by lra.
  replace (0 / (1 * 1)) with 0 by lra; apply acos_0.
Qed.

(** ** The logarithm at the singularity *)

Lemma Rangle_self (p : list R) : 0 < Rdot p p -> Rangle p p = 0.
Proof.
  intros H; unfold Rangle, Rcos_angle.
  rewrite sqrt_sqrt by lra.
  replace (Rdot p p / Rdot p p) with 1 by (field; lra).
  rewrite Rclip_id by lra; apply acos_1.
Qed.

Lemma nan_rows (p q : list num) :
  length p = length q ->
  zip_with nsub (map (nmul NaN) p) (map (nmul NaN) q)
  = map (fun _ => NaN) p.
Proof.
  revert q; induction p as [|x p IH]; intros [|y q] H; try discriminate;
    [reflexivity|].
  cbn [map zip_with nmul nsub nopp nadd]; f_equal; apply IH.
  cbn in H; congruence.
Qed.

(** Whatever the point, its logarithm at itself is NaN in every
    coordinate. *)
Lemma log_at_itself (p : list R) :
  0 < Rdot p p ->
  HypersphereMetric.log (Arr1 (fins p)) (Arr1 (fins p))
  = Arr2 (length (fins p)) [map (fun _ => NaN) (fins p)].
Proof.
  intros H; rewrite log_point, angle_of_fins by assumption.
  rewrite Rangle_self, log_coef_1_zero, log_coef_2_zero by assumption.
  rewrite nan_rows; reflexivity.
Qed.

(** C1 (the code departs from it).  The claim: inside the near-zero mask
    the coefficients of [log] are the Taylor polynomials, and the closed
    form contributes zero there.  At angle zero exactly, which is the case
    [point = base_point], the closed-form term is [0 * 0 / sin 0]: it is
    NaN, not zero, and the logarithm of a point at itself is NaN in every
    coordinate. *)
Theorem log_coincident_points_nan :
  HypersphereMetric.log (Arr1 [Fin 1; Fin 0; Fin 0]) (Arr1 [Fin 1; Fin 0; Fin 0])
  = Arr2 3 [[NaN; NaN; NaN]].
Proof.
  rewrite log_point.
  change [Fin 1; Fin 0; Fin 0] with (fins [1; 0; 0]).
  rewrite angle_of_fins by rdot.
  rewrite Rangle_coincident, log_coef_1_zero, log_coef_2_zero.
  reflexivity.
Qed.

(** ** The quarter-turn scenario *)

(** C4.  On the 2-sphere, for [base_point = (1,0,0)] and
    [point = (0,1,0)], [dist] is [pi/2] and [log] is [(0, pi/2, 0)];
    [dist] is the arc cosine of the clipped, normalised inner product and
    nothing else. *)
Theorem quarter_turn_dist_log :
  HypersphereMetric.dist (Arr1 [Fin 0; Fin 1; Fin 0]) (Arr1 [Fin 1; Fin 0; Fin 0])
  = [Fin (PI / 2)]
  /\ HypersphereMetric.log (Arr1 [Fin 0; Fin 1; Fin 0]) (Arr1 [Fin 1; Fin 0; Fin 0])
     = Arr2 3 [[Fin 0; Fin (PI / 2); Fin 0]]
  /\ forall point_a point_b : ndarray,
      HypersphereMetric.dist point_a point_b
      = map narccos
          (map (fun c => clip c (-1) 1)
               (zip_with ndiv
                  (EuclideanMetric.inner_product point_a point_b)
                  (zip_with nmul (EuclideanMetric.norm point_a)
                                 (EuclideanMetric.norm point_b)))).
Proof.
  assert (HPI : 3 < PI) by (pose proof PI2_3_2; lra).
  split; [|split].
  - rewrite dist_point.
    change [Fin 0; Fin 1; Fin 0] with (fins [0; 1; 0]).
    change [Fin 1; Fin 0; Fin 0] with (fins [1; 0; 0]).
    rewrite angle_of_fins by rdot.
    unfold Rangle, Rcos_angle.
    replace (Rdot [1; 0; 0] [1; 0; 0]) with 1 by rdot.
    replace (Rdot [0; 1; 0] [0; 1; 0]) with 1 by rdot.
    replace (Rdot [0; 1; 0] [1; 0; 0]) with 0 by rdot.
    rewrite sqrt_1, Rclip_id by lra.
    replace (0 / (1 * 1)) with 0 by lra; rewrite acos_0; reflexivity.
  - rewrite log_point.
    change [Fin 0; Fin 1; Fin 0] with (fins [0; 1; 0]).
    change [Fin 1; Fin 0; Fin 0] with (fins [1; 0; 0]).
    rewrite angle_of_fins by rdot.
    rewrite Rangle_orthogonal.
    rewrite log_coef_1_far, log_coef_2_far by (rewrite ?sin_PI2; lra).
    rewrite sin_PI2, cos_PI2.
    cbn [fins map zip_with nmul nsub nadd nopp length].
    replace (PI / 2 / 1 * 0 + - (PI / 2 * 0 / 1 * 1)) with 0 by lra.
    replace (PI / 2 / 1 * 1 + - (PI / 2 * 0 / 1 * 0)) with (PI / 2) by lra.
    replace (PI / 2 / 1 * 0 + - (PI / 2 * 0 / 1 * 0)) with 0 by lra.
    reflexivity.
  - reflexivity.
Qed.

(** ** Lists *)

Lemma zip_with_diag {A B} (f : A -> A -> B) (l : list A) :
  zip_with f l l = map (fun x => f x x) l.
Proof. induction l as [|x l IH]; [reflexivity|]; cbn; rewrite IH; reflexivity. Qed.

Lemma zip_with_map_l {A B C D} (f : B -> C -> D) (g : A -> B) l m :
  zip_with f (map g l) m = zip_with (fun a c => f (g a) c) l m.
Proof.
  revert m; induction l as [|x l IH]; intros [|y m]; try reflexivity.
  cbn; rewrite IH; reflexivity.
Qed.

Lemma zip_with_map_r {A B C D} (f : A -> C -> D) (g : B -> C) l m :
  zip_with f l (map g m) = zip_with (fun a b => f a (g b)) l m.
Proof.
  revert m; induction l as [|x l IH]; intros [|y m]; try reflexivity.
  cbn; rewrite IH; reflexivity.
Qed.

Lemma zip_with_length {A B C} (f : A -> B -> C) l m :
  length l = length m -> length (zip_with f l m) = length l.
Proof.
  revert m; induction l as [|x l IH]; intros [|y m] H; try discriminate;
    [reflexivity|]; cbn in *; rewrite IH; congruence.
Qed.

(** ** Coordinates *)

(** C9.  Lifting a batch of intrinsic coordinates and dropping the first
    coordinate again gives the batch back, whatever the prepended
    coordinate is (NaN when the intrinsic norm exceeds 1). *)
Theorem intrinsic_extrinsic_round_trip (n : nat) (rows : list (list num)) :
  Hypersphere.extrinsic_to_intrinsic_coords
    (Hypersphere.intrinsic_to_extrinsic_coords (Arr2 n rows))
  = Arr2 n rows.
Proof.
  unfold Hypersphere.extrinsic_to_intrinsic_coords,
    Hypersphere.intrinsic_to_extrinsic_coords, linalg_norm.
  cbn [to_ndarray_2 rows_of shape_last].
  rewrite Nat.add_comm, Nat.add_sub; f_equal.
  rewrite map_map, zip_with_map_l, zip_with_diag, map_map; cbn [tl].
  apply map_id.
Qed.

(** The prepended coordinate of a point of intrinsic norm 2 is NaN, and
    the conversion back drops it. *)
Lemma intrinsic_to_extrinsic_outside_ball :
  Hypersphere.intrinsic_to_extrinsic_coords (Arr2 2 [[Fin 2; Fin 0]])
  = Arr2 3 [[NaN; Fin 2; Fin 0]].
Proof.
  unfold Hypersphere.intrinsic_to_extrinsic_coords, linalg_norm, sum_sq.
  cbn [to_ndarray_2 rows_of shape_last map fold_right nmul nadd zip_with
       nsqrt Nat.add].
  replace (2 * 2 + (0 * 0 + 0)) with (2 * 2) by lra.
  rewrite sqrt_square, Rltb_false by lra.
  cbn [npow nmul nsub nopp nadd nsqrt].
  rewrite Rltb_true by lra; reflexivity.
Qed.

(** ** The squared norm of the metric *)

(** C10.  [squared_norm] is the ambient squared norm of the vector, one
    sum of squares per row, and the base point plays no part in it. *)
Theorem squared_norm_ignores_base_point
        (vector : ndarray) (base_point base_point' : option ndarray) :
  HypersphereMetric.squared_norm vector base_point
  = map (fun row => EuclideanMetric.dot row row) (rows_of vector)
  /\ HypersphereMetric.squared_norm vector base_point
     = HypersphereMetric.squared_norm vector base_point'
  /\ HypersphereMetric.squared_norm vector None
     = HypersphereMetric.squared_norm vector base_point.
Proof.
  repeat split.
  unfold HypersphereMetric.squared_norm, EuclideanMetric.squared_norm,
    EuclideanMetric.inner_product.
  destruct vector; cbn [to_ndarray_2 rows_of]; apply zip_with_diag.
Qed.

(** ** Membership *)

(** On an array of no axis [belongs] raises at [point.shape[-1]]. *)
Lemma belongs_no_axis (dimension : nat) (x : num) (tolerance : R) :
  Hypersphere.belongs dimension (Arr0 x) tolerance = ([], Raise IndexError).
Proof. reflexivity. Qed.

(** On an array of at least one axis the shape has a last entry. *)
Lemma belongs_axis (dimension : nat) (point : ndarray) (tolerance : R) :
  ndim point <> 0%nat ->
  Hypersphere.belongs dimension point tolerance
  = (let point_dim := shape_last point in
     if negb (point_dim =? dimension + 1)%nat then
       (if py_is point_dim dimension
        then logging_warning intrinsic_warning
        else ret tt) ;;;
       ret (PyBool false)
     else
       let sq_norm := EuclideanMetric.squared_norm point in
       let diff := map (fun x => nabs (nsub x (Fin 1))) sq_norm in
       ret (BoolArr (map (fun d => nle d (Fin tolerance)) diff))).
Proof. destruct point; [contradiction | reflexivity | reflexivity]. Qed.

(** On an array of at least one axis [belongs] does not raise; it
    answers true exactly on the points of [dimension + 1] coordinates
    whose squared norm is within the tolerance of 1, and it logs its
    warning exactly when the point has [dimension] coordinates and
    [dimension] is at most 256. *)
Lemma belongs_spec (dimension : nat) (point : ndarray) (tolerance : R) :
  ndim point <> 0%nat ->
  exists mask,
    outcome (Hypersphere.belongs dimension point tolerance) = Return mask
    /\ (gs_all mask = true <->
        shape_last point = (dimension + 1)%nat
        /\ Forall (fun sq => nle (nabs (nsub sq (Fin 1))) (Fin tolerance) = true)
                  (EuclideanMetric.squared_norm point))
    /\ (shape_last point <> (dimension + 1)%nat -> mask = PyBool false)
    /\ (warnings (Hypersphere.belongs dimension point tolerance)
        = if ((shape_last point =? dimension)%nat
              && (dimension <=? SMALL_INT_MAX)%nat)%bool
          then [intrinsic_warning] else []).
Proof.
  intros Hnd; rewrite (belongs_axis dimension point tolerance Hnd); cbn zeta.
  destruct (Nat.eqb_spec (shape_last point) (dimension + 1)) as [E | E];
    cbn [negb].
  - eexists; split; [reflexivity|]; split; [|split].
    + cbn [gs_all]; rewrite forallb_forall, Forall_forall; split.
      * intros H; split; [assumption|].
        intros sq Hsq; apply (H (nle (nabs (nsub sq (Fin 1))) (Fin tolerance))).
        rewrite map_map; apply in_map_iff; exists sq; split; [reflexivity | assumption].
      * intros [_ H] b Hb; rewrite map_map in Hb.
        apply in_map_iff in Hb as (sq & <- & Hsq); apply H; assumption.
    + intros; contradiction.
    + cbn [warnings fst ret].
      destruct (Nat.eqb_spec (shape_last point) dimension); [lia | reflexivity].
  - unfold py_is.
    destruct (Nat.eqb_spec (shape_last point) dimension) as [E' | E'].
    + rewrite E'; destruct (dimension <=? SMALL_INT_MAX)%nat;
        (eexists; split; [reflexivity|]; split; [|split];
         [ split; [discriminate | intros [? _]; lia] | reflexivity | reflexivity ]).
    + eexists; split; [reflexivity|]; split; [|split];
        [ split; [discriminate | intros [? _]; lia] | reflexivity | reflexivity ].
Qed.

(** C5 (the code departs from it).  The claim: a point whose last axis
    has [n] entries makes [belongs] log a warning and answer false.  The
    test is written [point_dim is self.dimension]; on a sphere of
    dimension 257 the two integers are equal but not identical, and a
    point of 257 coordinates is answered false without any warning. *)
Theorem belongs_silent_above_small_ints :
  Hypersphere.belongs 257 (Arr1 (repeat (Fin 0) 257)) TOLERANCE
  = ([], Return (PyBool false)).
Proof.
  unfold Hypersphere.belongs; cbn [shape_last].
  rewrite repeat_length; reflexivity.
Qed.

(** ** The exponential *)

Lemma Rdot_self_nonneg (a : list R) : 0 <= Rdot a a.
Proof.
  unfold Rdot; induction a as [|x a IH]; cbn [zip_with fold_right]; [lra|].
  pose proof (Rle_0_sqr x) as H; unfold Rsqr in H; lra.
Qed.

Lemma Rnorm_nonneg (a : list R) : 0 <= Rnorm a.
Proof. apply sqrt_pos. Qed.

Lemma norm_fins (a : list R) :
  nsqrt (EuclideanMetric.dot (fins a) (fins a)) = Fin (Rnorm a).
Proof.
  rewrite dot_fins; cbn [nsqrt].
  rewrite Rltb_false by apply Rdot_self_nonneg; reflexivity.
Qed.

Lemma lincomb_fins (a b : R) (p v : list R) :
  zip_with nadd (map (nmul (Fin a)) (fins p)) (map (nmul (Fin b)) (fins v))
  = fins (zip_with (fun pi vi => a * pi + b * vi) p v).
Proof.
  revert v; induction p as [|x p IH]; intros [|y v]; try reflexivity.
  cbn [fins map zip_with nmul nadd]; f_equal; apply IH.
Qed.

Lemma lincomb_sub_fins (a b : R) (p v : list R) :
  zip_with nsub (map (nmul (Fin a)) (fins p)) (map (nmul (Fin b)) (fins v))
  = fins (zip_with (fun pi vi => a * pi - b * vi) p v).
Proof.
  revert v; induction p as [|x p IH]; intros [|y v]; try reflexivity.
  cbn [fins map zip_with nmul nsub nopp nadd]; f_equal; apply IH.
Qed.

Lemma exp_point (v p : list num) :
  HypersphereMetric.exp (Arr1 v) (Arr1 p)
  = let n := nadd (nsqrt (EuclideanMetric.dot v v)) (Fin EPSILON) in
    Arr2 (length p)
         [zip_with nadd (map (nmul (ncos n)) p)
                        (map (nmul (ndiv (nsin n) n)) v)].
Proof. reflexivity. Qed.

Lemma EPSILON_pos : 0 < EPSILON.
Proof. unfold EPSILON; lra. Qed.

Lemma exp_point_fins (v p : list R) :
  HypersphereMetric.exp (Arr1 (fins v)) (Arr1 (fins p))
  = Arr2 (length (fins p)) [fins (exp_shifted_norm v p)].
Proof.
  rewrite exp_point, norm_fins; cbn zeta; cbn [nadd ncos nsin ndiv].
  pose proof (Rnorm_nonneg v); pose proof EPSILON_pos.
  rewrite Reqb_false by lra.
  rewrite lincomb_fins; reflexivity.
Qed.



(** ** Sampling from the von Mises-Fisher distribution *)





(** The formula has no value at concentration 0: there the division
    [1./kappa] raises. *)
Lemma von_mises_fisher_zero_concentration :
  Hypersphere.random_von_mises_fisher 2 0 [0] [0]
  = ([], Raise ZeroDivisionError).
Proof.
  unfold Hypersphere.random_von_mises_fisher, py_div; cbn [Nat.eqb negb].
  rewrite Reqb_true by reflexivity; reflexivity.
Qed.

(** ** Points produced by [projection] and [random_uniform] *)

Lemma rows_of_to_ndarray_2 (a : ndarray) : rows_of (to_ndarray_2 a) = rows_of a.
Proof. destruct a; reflexivity. Qed.

Lemma shape_last_to_ndarray_2 (a : ndarray) :
  shape_last (to_ndarray_2 a) = shape_last a.
Proof. destruct a; reflexivity. Qed.

Lemma to_ndarray_2_idem (a : ndarray) :
  to_ndarray_2 (to_ndarray_2 a) = to_ndarray_2 a.
Proof. destruct a; reflexivity. Qed.

Lemma squared_norm_rows (a : ndarray) :
  EuclideanMetric.squared_norm a
  = map (fun row => EuclideanMetric.dot row row) (rows_of a).
Proof.
  unfold EuclideanMetric.squared_norm, EuclideanMetric.inner_product.
  rewrite rows_of_to_ndarray_2; apply zip_with_diag.
Qed.

(** [belongs] on a batch of finite rows of the right length. *)
Lemma belongs_fins (n : nat) (point : ndarray) (rows : list (list R)) (tol : R) :
  ndim point <> 0%nat ->
  shape_last point = (n + 1)%nat ->
  rows_of point = map fins rows ->
  Hypersphere.belongs n point tol
  = ([], Return (BoolArr (map (fun r => Rleb (Rabs (Rdot r r - 1)) tol) rows))).
Proof.
  intros Hnd Hk Hrows; rewrite (belongs_axis n point tol Hnd); cbn zeta.
  rewrite Hk, Nat.eqb_refl; cbn [negb].
  rewrite squared_norm_rows, Hrows, !map_map.
  unfold ret; do 3 f_equal.
  apply map_ext; intros r; rewrite dot_fins; reflexivity.
Qed.

Lemma Rdot_scale (c : R) (r : list R) :
  Rdot (map (fun x => x / c) r) (map (fun x => x / c) r)
  = Rdot r r / (c * c).
Proof.
  unfold Rdot; induction r as [|x r IH]; cbn [map zip_with fold_right].
  - unfold Rdiv; ring.
  - rewrite IH.
    destruct (Req_dec_T c 0) as [-> | Hc].
    + unfold Rdiv; rewrite Rmult_0_l, Rinv_0; ring.
    + field; assumption.
Qed.

Lemma Rdot_normalize (r : list R) :
  0 < Rdot r r -> Rdot (Rnormalize r) (Rnormalize r) = 1.
Proof.
  intros H; unfold Rnormalize; rewrite Rdot_scale.
  unfold Rnorm; rewrite sqrt_sqrt by lra; field; lra.
Qed.

Lemma projection_fins (point : ndarray) (rows : list (list R)) :
  rows_of point = map fins rows ->
  Forall (fun r => 0 < Rdot r r) rows ->
  Hypersphere.projection point
  = Arr2 (shape_last point) (map fins (map Rnormalize rows)).
Proof.
  intros Hrows Hpos; unfold Hypersphere.projection, EuclideanMetric.norm.
  rewrite shape_last_to_ndarray_2, rows_of_to_ndarray_2, squared_norm_rows,
    rows_of_to_ndarray_2, Hrows; f_equal.
  unfold mat_div_col; rewrite !map_map, zip_with_map_r, zip_with_map_l,
    zip_with_diag.
  apply map_ext_in; intros r Hr.
  rewrite Forall_forall in Hpos; specialize (Hpos r Hr).
  rewrite norm_fins; unfold Rnormalize, fins; rewrite !map_map.
  apply map_ext; intros x; cbn [ndiv].
  assert (0 < Rnorm r) by (apply sqrt_lt_R0; assumption).
  rewrite Reqb_false by lra; reflexivity.
Qed.

Lemma sum_sq_fins (x : list R) : sum_sq (fins x) = Fin (Rdot x x).
Proof.
  unfold sum_sq, Rdot; induction x as [|a x IH]; [reflexivity|].
  cbn [fins map fold_right zip_with]; fold (fins x); rewrite IH; reflexivity.
Qed.

Lemma Rnorm_sq (x : list R) : Rnorm x ^ 2 = Rdot x x.
Proof.
  unfold Rnorm; cbn [pow]; rewrite Rmult_1_r.
  apply sqrt_sqrt, Rdot_self_nonneg.
Qed.

Lemma Rdot_lift (x : list R) : Rdot x x <= 1 -> Rdot (Rlift x) (Rlift x) = 1.
Proof.
  intros H; unfold Rlift.
  change (Rdot (sqrt (1 - Rnorm x ^ 2) :: x) (sqrt (1 - Rnorm x ^ 2) :: x))
    with (sqrt (1 - Rnorm x ^ 2) * sqrt (1 - Rnorm x ^ 2) + Rdot x x).
  rewrite sqrt_sqrt, Rnorm_sq by (rewrite Rnorm_sq; lra); lra.
Qed.

Lemma Rshift_bound (d : list R) :
  Forall (fun u => 0 <= u < 1) d ->
  Rdot (Rshift d) (Rshift d) <= INR (length d) / 4.
Proof.
  induction 1 as [|u d Hu _ IH].
  - cbn; lra.
  - change (Rdot (Rshift (u :: d)) (Rshift (u :: d)))
      with ((u - 0.5) * (u - 0.5) + Rdot (Rshift d) (Rshift d)).
    change (length (u :: d)) with (S (length d)); rewrite S_INR; nra.
Qed.

Lemma random_uniform_fins (n : nat) (draws : list (list R)) :
  Forall (fun d => Rdot (Rshift d) (Rshift d) <= 1) draws ->
  Hypersphere.random_uniform n draws
  = Arr2 (1 + n) (map fins (map (fun d => Rlift (Rshift d)) draws)).
Proof.
  intros H; unfold Hypersphere.random_uniform,
    Hypersphere.intrinsic_to_extrinsic_coords, linalg_norm.
  cbn [to_ndarray_2 rows_of shape_last]; f_equal.
  rewrite !map_map, zip_with_map_l, zip_with_map_r, zip_with_diag.
  apply map_ext_in; intros d Hd.
  rewrite Forall_forall in H; specialize (H d Hd).
  assert (E : map (fun u => nsub (Fin u) (Fin 0.5)) d = fins (Rshift d))
    by (unfold fins, Rshift; rewrite map_map; reflexivity).
  rewrite E, sum_sq_fins; cbn [nsqrt].
  rewrite Rltb_false by apply Rdot_self_nonneg.
  fold (Rnorm (Rshift d)); rewrite npow_fin; cbn [nsub nopp nadd nsqrt].
  change (1 + - Rnorm (Rshift d) ^ 2) with (1 - Rnorm (Rshift d) ^ 2).
  rewrite Rltb_false by (rewrite Rnorm_sq; lra).
  reflexivity.
Qed.

(** C8 as stated fails.  The projection of the zero vector has NaN
    coordinates and does not belong to the 1-sphere; on the 5-sphere, the
    sample built from five draws equal to 0 has intrinsic norm above 1, a
    NaN first coordinate, and does not belong either. *)
Lemma belongs_fails_after_projection_and_uniform :
  Hypersphere.belongs 1 (Hypersphere.projection (Arr1 [Fin 0; Fin 0])) TOLERANCE
  = ([], Return (BoolArr [false]))
  /\ Hypersphere.belongs 5 (Hypersphere.random_uniform 5 [[0; 0; 0; 0; 0]])
                         TOLERANCE
     = ([], Return (BoolArr [false])).
Proof.
  split.
  - assert (E : Hypersphere.projection (Arr1 [Fin 0; Fin 0])
                = Arr2 2 [[NaN; NaN]]).
    { unfold Hypersphere.projection, EuclideanMetric.norm.
      rewrite squared_norm_rows.
      cbn [to_ndarray_2 rows_of shape_last length map mat_div_col zip_with].
      change [Fin 0; Fin 0] with (fins [0; 0]).
      rewrite norm_fins; unfold Rnorm.
      replace (Rdot [0; 0] [0; 0]) with 0 by rdot.
      rewrite sqrt_0; cbn [fins map ndiv].
      rewrite Reqb_true by reflexivity; reflexivity. }
    rewrite E; reflexivity.
  - assert (E : Hypersphere.random_uniform 5 [[0; 0; 0; 0; 0]]
                = Arr2 6 [[NaN; Fin (-0.5); Fin (-0.5); Fin (-0.5);
                           Fin (-0.5); Fin (-0.5)]]).
    { unfold Hypersphere.random_uniform,
        Hypersphere.intrinsic_to_extrinsic_coords, linalg_norm.
      cbn [to_ndarray_2 rows_of shape_last map zip_with Nat.add].
      assert (E : nsub (Fin 0) (Fin 0.5) = Fin (-0.5))
        by (cbn [nsub nopp nadd]; f_equal; lra).
      rewrite !E.
      change [Fin (-0.5); Fin (-0.5); Fin (-0.5); Fin (-0.5); Fin (-0.5)]
        with (fins [-0.5; -0.5; -0.5; -0.5; -0.5]).
      rewrite sum_sq_fins.
      replace (Rdot [-0.5; -0.5; -0.5; -0.5; -0.5]
                    [-0.5; -0.5; -0.5; -0.5; -0.5]) with 1.25 by rdot.
      cbn [nsqrt]; rewrite Rltb_false by lra.
      rewrite npow_fin; cbn [pow nsub nopp nadd nsqrt].
      rewrite Rmult_1_r, sqrt_sqrt by lra.
      rewrite Rltb_true by lra; reflexivity. }
    rewrite E; reflexivity.
Qed.

Lemma Rnorm_pos_range (r : list R) :
  1e-100 <= Rnorm r <= 1e100 -> 0 < Rdot r r.
Proof.
  intros [H _]; pose proof (Rdot_self_nonneg r) as [Hp | Hz]; [assumption|].
  unfold Rnorm in H; rewrite <- Hz, sqrt_0 in H; lra.
Qed.

(** C8, as the code has it.  Every point produced by [projection] from a
    batch of points of [n + 1] finite coordinates whose norm lies
    between [1e-100] and [1e100] belongs to the hypersphere, and so does
    every point produced by [random_uniform] on a hypersphere of
    dimension at most 4. *)
Theorem belongs_after_projection_and_uniform (n : nat) :
  (forall (point : ndarray) (rows : list (list R)),
      ndim point <> 0%nat ->
      shape_last point = (n + 1)%nat ->
      rows_of point = map fins rows ->
      Forall (fun r => 1e-100 <= Rnorm r <= 1e100) rows ->
      Hypersphere.belongs n (Hypersphere.projection point) TOLERANCE
      = ([], Return (BoolArr (map (fun _ => true) rows))))
  /\ (forall draws : list (list R),
         (n <= 4)%nat ->
         Forall (fun d => length d = n /\ Forall (fun u => 0 <= u < 1) d)
                draws ->
         Hypersphere.belongs n (Hypersphere.random_uniform n draws) TOLERANCE
         = ([], Return (BoolArr (map (fun _ => true) draws)))).
Proof.
  assert (Hone : Rleb (Rabs (1 - 1)) TOLERANCE = true).
  { rewrite Rminus_diag, Rabs_R0; apply Rleb_true; unfold TOLERANCE; lra. }
  split.
  - intros point rows _ Hk Hrows Hrange.
    assert (Hpos : Forall (fun r => 0 < Rdot r r) rows)
      by (eapply Forall_impl; [|exact Hrange]; apply Rnorm_pos_range).
    rewrite (projection_fins point rows Hrows Hpos), Hk.
    rewrite (belongs_fins n _ (map Rnormalize rows))
      by (discriminate || reflexivity).
    rewrite map_map; do 3 f_equal.
    apply map_ext_in; intros r Hr.
    rewrite Forall_forall in Hpos; rewrite Rdot_normalize by auto.
    exact Hone.
  - intros draws Hn Hd.
    assert (Hb : Forall (fun d => Rdot (Rshift d) (Rshift d) <= 1) draws).
    { eapply Forall_impl; [|exact Hd]; cbn beta; intros d [Hl Hu].
      pose proof (Rshift_bound d Hu) as B; rewrite Hl in B.
      apply le_INR in Hn; cbn [INR] in Hn; lra. }
    rewrite (random_uniform_fins n draws Hb).
    rewrite (belongs_fins n _ (map (fun d => Rlift (Rshift d)) draws))
      by (cbn [shape_last rows_of]; (discriminate || lia || reflexivity)).
    rewrite map_map; do 3 f_equal.
    apply map_ext_in; intros d Hd'.
    rewrite Forall_forall in Hb; rewrite Rdot_lift by auto.
    exact Hone.
Qed.

(** The projection of [(3, 4)] and of [(0, 2)] on the 1-sphere, and two
    samples on the 2-sphere. *)
Lemma belongs_after_projection_and_uniform_witness :
  Hypersphere.belongs 1
    (Hypersphere.projection (Arr2 2 (map fins [[3; 4]; [0; 2]]))) TOLERANCE
  = ([], Return (BoolArr [true; true]))
  /\ Hypersphere.belongs 2
       (Hypersphere.random_uniform 2 [[0; 0.5]; [0.75; 0.25]]) TOLERANCE
     = ([], Return (BoolArr [true; true])).
Proof.
  split.
  - apply (proj1 (belongs_after_projection_and_uniform 1)
                 (Arr2 2 (map fins [[3; 4]; [0; 2]])) [[3; 4]; [0; 2]]).
    + discriminate.
    + reflexivity.
    + reflexivity.
    + repeat constructor; unfold Rnorm.
      * replace (Rdot [3; 4] [3; 4]) with (5 * 5) by rdot.
        rewrite sqrt_square; lra.
      * replace (Rdot [3; 4] [3; 4]) with (5 * 5) by rdot.
        rewrite sqrt_square; lra.
      * replace (Rdot [0; 2] [0; 2]) with (2 * 2) by rdot.
        rewrite sqrt_square; lra.
      * replace (Rdot [0; 2] [0; 2]) with (2 * 2) by rdot.
        rewrite sqrt_square; lra.
  - apply (proj2 (belongs_after_projection_and_uniform 2)
                 [[0; 0.5]; [0.75; 0.25]]).
    + lia.
    + repeat constructor; lra.
Defined.

(** ** Regularisation *)

Lemma forallb_all_true {A} (f : A -> bool) (l : list A) :
  (forall x, In x l -> f x = true) -> forallb (fun b => b) (map f l) = true.
Proof.
  intros H; apply forallb_forall; intros b Hb.
  apply in_map_iff in Hb as (x & <- & Hx); apply H; assumption.
Qed.

Lemma within_one_pos (r : list R) :
  Rabs (Rdot r r - 1) <= TOLERANCE -> 0 < Rdot r r.
Proof.
  unfold Rabs, TOLERANCE; destruct (Rcase_abs (Rdot r r - 1)); lra.
Qed.

(** On finite points of the hypersphere, [regularize] returns every
    coordinate divided by the norm of its point. *)
Lemma regularize_fins (n : nat) (point : ndarray) (rows : list (list R)) :
  ndim point <> 0%nat ->
  shape_last point = (n + 1)%nat ->
  rows_of point = map fins rows ->
  Forall (fun r => Rabs (Rdot r r - 1) <= TOLERANCE) rows ->
  Hypersphere.regularize n point
  = ([], Return (Arr2 (n + 1) (map fins (map Rnormalize rows)))).
Proof.
  intros Hnd Hk Hrows Hin; unfold Hypersphere.regularize.
  rewrite (belongs_fins n point rows TOLERANCE Hnd Hk Hrows); cbn [bind gs_all].
  rewrite forallb_all_true.
  2:{ rewrite Forall_forall in Hin; intros r Hr; apply Rleb_true, Hin, Hr. }
  rewrite (projection_fins point rows Hrows), Hk; [reflexivity|].
  eapply Forall_impl; [|exact Hin]; apply within_one_pos.
Qed.

Lemma nmul_self_fin_inv (x : num) (s : R) : nmul x x = Fin s -> finite x.
Proof. destruct x; cbn; intros H; try discriminate H; exact I. Qed.

Lemma dot_self_fin_inv (r : list num) (s : R) :
  EuclideanMetric.dot r r = Fin s -> Forall finite r.
Proof.
  revert s; induction r as [|x r IH]; intros s H; [constructor|].
  unfold EuclideanMetric.dot in H; cbn [zip_with fold_right] in H.
  destruct (nmul x x) as [a| | |] eqn:Ex;
    try (destruct (fold_right nadd (Fin 0) (zip_with nmul r r)); discriminate H).
  destruct (fold_right nadd (Fin 0) (zip_with nmul r r)) as [b| | |] eqn:Er;
    try discriminate H.
  constructor; [eapply nmul_self_fin_inv; eassumption | eapply IH; exact Er].
Qed.

Lemma within_tolerance_fin (x : num) (t : R) :
  nle (nabs (nsub x (Fin 1))) (Fin t) = true -> exists s, x = Fin s.
Proof. destruct x; cbn; intros H; try discriminate H; eexists; reflexivity. Qed.

Lemma finite_fins (r : list num) : Forall finite r -> exists x, r = fins x.
Proof.
  induction 1 as [|a r Ha _ [x ->]]; [exists []; reflexivity|].
  destruct a as [t| | |]; try contradiction.
  exists (t :: x); reflexivity.
Qed.

Lemma finite_rows_fins (rows : list (list num)) :
  Forall (Forall finite) rows -> exists xs, rows = map fins xs.
Proof.
  induction 1 as [|r rows Hr _ [xs ->]]; [exists []; reflexivity|].
  destruct (finite_fins r Hr) as [x ->].
  exists (x :: xs); reflexivity.
Qed.

Lemma Rleb_true_inv (a b : R) : Rleb a b = true -> a <= b.
Proof. unfold Rleb; destruct (Rle_dec a b); [auto | discriminate]. Qed.

(** What a true answer of [belongs] says of the point. *)
Lemma belongs_true_inv
      (dimension : nat) (point : ndarray) (tolerance : R) (mask : pybools) :
  outcome (Hypersphere.belongs dimension point tolerance) = Return mask ->
  gs_all mask = true ->
  ndim point <> 0%nat
  /\ shape_last point = (dimension + 1)%nat
  /\ exists rows,
      rows_of point = map fins rows
      /\ Forall (fun r => Rabs (Rdot r r - 1) <= tolerance) rows.
Proof.
  intros Hm Hall.
  assert (Hnd : ndim point <> 0%nat)
    by (destruct point; [discriminate Hm | discriminate | discriminate]).
  destruct (belongs_spec dimension point tolerance Hnd)
    as (mask' & Hm' & Hiff & _).
  rewrite Hm in Hm'; injection Hm' as <-.
  destruct (proj1 Hiff Hall) as [Hk Hsq].
  split; [exact Hnd|]; split; [exact Hk|].
  rewrite squared_norm_rows, Forall_map in Hsq.
  destruct (finite_rows_fins (rows_of point)) as [rows Hrows].
  { eapply Forall_impl; [|exact Hsq]; cbn beta; intros r Hr.
    destruct (within_tolerance_fin _ _ Hr) as [s Hs].
    eapply dot_self_fin_inv; exact Hs. }
  exists rows; split; [exact Hrows|].
  rewrite Hrows, Forall_map in Hsq.
  eapply Forall_impl; [|exact Hsq]; cbn beta; intros r Hr.
  rewrite dot_fins in Hr; cbn [nsub nopp nadd nabs nle] in Hr.
  apply Rleb_true_inv in Hr; exact Hr.
Qed.

(** C7.  [regularize] is a strict check.  On every array of at least one
    axis [belongs] gives an answer.  When the answer is not true of
    every point, [regularize] raises its assertion error and returns
    nothing.  When it is, the coordinates are finite, no norm is zero,
    and [regularize] returns the points with every coordinate divided by
    the norm of its point, [x / sqrt (x1^2 + ... )].  On an array of no
    axis the membership test itself raises, at [point.shape[-1]]. *)
Theorem regularize_strict (dimension : nat) (point : ndarray) :
  (ndim point = 0%nat ->
   Hypersphere.regularize dimension point = ([], Raise IndexError))
  /\ (ndim point <> 0%nat ->
      exists mask,
        outcome (Hypersphere.belongs dimension point TOLERANCE) = Return mask
        /\ (gs_all mask = false ->
            outcome (Hypersphere.regularize dimension point)
            = Raise AssertionError)
        /\ (gs_all mask = true ->
            exists rows : list (list R),
              rows_of point = map fins rows
              /\ Forall (fun r => 0 < Rdot r r) rows
              /\ Hypersphere.regularize dimension point
                 = ([], Return
                          (Arr2 (dimension + 1)
                             (map (fun r =>
                                     fins (map (fun x => x / sqrt (Rdot r r))
                                               r))
                                  rows))))).
Proof.
  split.
  - destruct point; try discriminate; reflexivity.
  - intros Hnd.
    destruct (belongs_spec dimension point TOLERANCE Hnd)
      as (mask & Hm & _).
    exists mask; split; [assumption|]; split; intros Hall.
    + unfold Hypersphere.regularize, outcome in *.
      destruct (Hypersphere.belongs dimension point TOLERANCE) as [w [m | e]];
        cbn [snd] in Hm; [|discriminate].
      injection Hm as ->; cbn [bind]; rewrite Hall; reflexivity.
    + destruct (belongs_true_inv dimension point TOLERANCE mask Hm Hall)
        as (_ & Hk & rows & Hrows & Hin).
      exists rows; split; [exact Hrows|]; split.
      * eapply Forall_impl; [|exact Hin]; apply within_one_pos.
      * rewrite (regularize_fins dimension point rows Hnd Hk Hrows Hin).
        rewrite map_map; reflexivity.
Qed.

(** Two points of the 1-sphere are returned divided by their norms; the
    point [(3, 4)], of norm 5, is refused; a number alone raises at the
    shape. *)
Lemma regularize_strict_witness :
  (exists rows : list (list R),
      map fins [[0.6; 0.8]; [0; -1]] = map fins rows
      /\ Hypersphere.regularize 1 (Arr2 2 (map fins [[0.6; 0.8]; [0; -1]]))
         = ([], Return
                  (Arr2 2
                     (map (fun r =>
                             fins (map (fun x => x / sqrt (Rdot r r)) r))
                          rows))))
  /\ outcome (Hypersphere.regularize 1 (Arr1 (fins [3; 4])))
     = Raise AssertionError
  /\ Hypersphere.regularize 1 (Arr0 (Fin 1)) = ([], Raise IndexError).
Proof.
  split; [|split].
  - destruct (proj2 (regularize_strict
                       1 (Arr2 2 (map fins [[0.6; 0.8]; [0; -1]]))))
      as (mask & Hm & _ & Htrue); [discriminate|].
    rewrite (belongs_fins 1 _ [[0.6; 0.8]; [0; -1]]) in Hm
      by (discriminate || reflexivity).
    cbn [map outcome snd] in Hm.
    replace (Rdot [0.6; 0.8] [0.6; 0.8] - 1) with 0 in Hm by rdot.
    replace (Rdot [0; -1] [0; -1] - 1) with 0 in Hm by rdot.
    rewrite Rabs_R0, Rleb_true in Hm by (unfold TOLERANCE; lra).
    injection Hm as <-.
    destruct (Htrue eq_refl) as (rows & Hrows & _ & Hreg).
    exists rows; split; [exact Hrows | exact Hreg].
  - destruct (proj2 (regularize_strict 1 (Arr1 (fins [3; 4]))))
      as (mask & Hm & Hfalse & _); [discriminate|].
    rewrite (belongs_fins 1 _ [[3; 4]]) in Hm
      by (discriminate || reflexivity).
    cbn [map outcome snd] in Hm.
    replace (Rdot [3; 4] [3; 4] - 1) with 24 in Hm by rdot.
    rewrite Rabs_pos_eq, Rleb_false in Hm by (unfold TOLERANCE; lra).
    injection Hm as <-.
    apply Hfalse; reflexivity.
  - apply (proj1 (regularize_strict 1 (Arr0 (Fin 1)))); reflexivity.
Defined.

(** ** Real analysis for the round trip *)

Lemma sin_abs_le (x : R) : 0 <= x -> Rabs (sin x) <= x.
Proof.
  intros [Hx | <-].
  - apply Rabs_le; split.
    + destruct (Rle_dec x PI).
      * pose proof (sin_ge_0 x ltac:(lra) ltac:(lra)); lra.
      * pose proof (SIN_bound x); pose proof PI2_3_2; lra.
    + left; apply sin_lt_x; assumption.
  - rewrite sin_0, Rabs_R0; lra.
Qed.

Lemma sin_abs_le_abs (x : R) : Rabs (sin x) <= Rabs x.
Proof.
  destruct (Rle_dec 0 x).
  - rewrite (Rabs_pos_eq x) by assumption; apply sin_abs_le; assumption.
  - rewrite <- (Rabs_Ropp (sin x)), <- sin_neg, <- (Rabs_Ropp x).
    rewrite (Rabs_pos_eq (- x)) by lra; apply sin_abs_le; lra.
Qed.

Lemma cos_lipschitz (a b : R) : Rabs (cos a - cos b) <= Rabs (a - b).
Proof.
  rewrite form2, !Rabs_mult.
  replace (Rabs (-2)) with 2 by (rewrite Rabs_left; lra).
  pose proof (sin_abs_le_abs ((a - b) / 2)) as H1.
  pose proof (SIN_bound ((a + b) / 2)) as H2.
  assert (H3 : Rabs (sin ((a + b) / 2)) <= 1) by (apply Rabs_le; lra).
  assert (H4 : Rabs ((a - b) / 2) = Rabs (a - b) / 2).
  { unfold Rdiv; rewrite Rabs_mult, (Rabs_pos_eq (/ 2)) by lra; reflexivity. }
  pose proof (Rabs_pos (sin ((a - b) / 2))).
  pose proof (Rabs_pos (sin ((a + b) / 2))).
  rewrite H4 in H1. nra.
Qed.

Lemma sin_lipschitz (a b : R) : Rabs (sin a - sin b) <= Rabs (a - b).
Proof.
  rewrite form4, !Rabs_mult.
  rewrite (Rabs_pos_eq 2) by lra.
  pose proof (sin_abs_le_abs ((a - b) / 2)) as H1.
  pose proof (COS_bound ((a + b) / 2)) as H2.
  assert (H3 : Rabs (cos ((a + b) / 2)) <= 1) by (apply Rabs_le; lra).
  assert (H4 : Rabs ((a - b) / 2) = Rabs (a - b) / 2).
  { unfold Rdiv; rewrite Rabs_mult, (Rabs_pos_eq (/ 2)) by lra; reflexivity. }
  pose proof (Rabs_pos (sin ((a - b) / 2))).
  pose proof (Rabs_pos (cos ((a + b) / 2))).
  rewrite H4 in H1. nra.
Qed.

Lemma cos_lower (x : R) : 1 - x ^ 2 / 2 <= cos x.
Proof.
  replace x with (2 * (x / 2)) at 2 by lra.
  rewrite cos_2a_sin.
  pose proof (sin_abs_le_abs (x / 2)) as H.
  assert (H4 : Rabs (x / 2) = Rabs x / 2).
  { unfold Rdiv; rewrite Rabs_mult, (Rabs_pos_eq (/ 2)) by lra; reflexivity. }
  rewrite H4 in H.
  assert (sin (x/2) * sin (x/2) <= (Rabs x / 2) * (Rabs x / 2)).
  { rewrite <- (Rabs_mult (sin (x/2)) (sin (x/2))) || idtac.
    pose proof (Rabs_pos (sin (x/2))).
    assert (Rabs (sin (x/2)) * Rabs (sin (x/2)) = sin (x/2) * sin (x/2)).
    { rewrite <- Rabs_mult. apply Rabs_pos_eq. nra. }
    nra. }
  assert (Rabs x * Rabs x = x * x).
  { rewrite <- Rabs_mult. apply Rabs_pos_eq. nra. }
  nra.
Qed.

Lemma sin_lower (x : R) : 0 <= x <= 1 -> x - x ^ 3 / 6 <= sin x.
Proof.
  intros Hx.
  pose proof PI2_3_2 as HPI.
  pose proof (sin_bound x 0 ltac:(lra) ltac:(lra)) as [Hs _].
  unfold sin_approx, sin_term in Hs; cbn in Hs.
  lra.
Qed.

Lemma Rabs_le_bounds (a b : R) : Rabs a <= b -> - b <= a <= b.
Proof. unfold Rabs; destruct (Rcase_abs a); lra. Qed.

Lemma far_bound (t : R) :
  0 < t ->
  (cos (t + EPSILON) - cos t) ^ 2
  + (sin (t + EPSILON) / (t + EPSILON) * t - sin t) ^ 2 <= 5 * EPSILON ^ 2.
Proof.
  intros Ht. assert (He : 0 < EPSILON) by (unfold EPSILON; lra).
  set (N := t + EPSILON).
  pose proof (cos_lipschitz N t) as Hc.
  pose proof (sin_lipschitz N t) as Hs.
  replace (N - t) with EPSILON in * by (unfold N; lra).
  rewrite (Rabs_pos_eq EPSILON) in * by lra.
  pose proof (sin_abs_le N ltac:(unfold N; lra)) as HN.
  assert (HNpos : 0 < N) by (unfold N; lra).
  assert (E : sin N / N * t - sin t = (sin N - sin t) - EPSILON * (sin N / N)).
  { unfold N; field; lra. }
  assert (Hq : Rabs (sin N / N) <= 1).
  { unfold Rdiv; rewrite Rabs_mult, (Rabs_pos_eq (/ N)) by (left; apply Rinv_0_lt_compat; lra).
    apply (Rmult_le_reg_r N); [lra|]. rewrite Rmult_assoc, Rinv_l by lra. lra. }
  apply Rabs_le_bounds in Hc, Hs, Hq.
  rewrite E.
  set (u := sin N / N) in *. set (a := cos N - cos t) in *. set (b := sin N - sin t) in *.
  clearbody u a b. clear E HN.
  assert (H1 : - EPSILON <= EPSILON * u <= EPSILON) by nra.
  assert (H2 : a * a <= EPSILON * EPSILON) by nra.
  set (w := b - EPSILON * u) in *.
  assert (H3 : - (2 * EPSILON) <= w <= 2 * EPSILON) by (unfold w; lra).
  clearbody w.
  assert (H4 : w * w <= (2 * EPSILON) * (2 * EPSILON)) by nra.
  simpl pow; lra.
Qed.

Lemma pow_even_as_square (t : R) :
  t ^ 4 = (t ^ 2) ^ 2 /\ t ^ 6 = (t ^ 2) ^ 3 /\ t ^ 8 = (t ^ 2) ^ 4.
Proof. repeat split; ring. Qed.

Lemma inv_sin_taylor_bounds (t : R) :
  0 <= t ^ 2 <= 1 -> 1 <= inv_sin_taylor t <= 1 + t ^ 2.
Proof.
  intros Hy; unfold inv_sin_taylor.
  destruct (pow_even_as_square t) as (-> & -> & ->).
  set (y := t ^ 2) in *; clearbody y.
  assert (0 <= y ^ 2 <= y) by nra.
  assert (0 <= y ^ 3 <= y) by nra.
  assert (0 <= y ^ 4 <= y) by nra.
  lra.
Qed.

Lemma inv_tan_taylor_bounds (t : R) :
  0 <= t ^ 2 <= 1 -> 1 - t ^ 2 <= inv_tan_taylor t <= 1.
Proof.
  intros Hy; unfold inv_tan_taylor.
  destruct (pow_even_as_square t) as (-> & -> & ->).
  set (y := t ^ 2) in *; clearbody y.
  assert (0 <= y ^ 2 <= y) by nra.
  assert (0 <= y ^ 3 <= y) by nra.
  assert (0 <= y ^ 4 <= y) by nra.
  lra.
Qed.

Lemma sinc_bounds (n : R) :
  0 < n <= 1 -> 1 - n ^ 2 / 6 <= sin n / n <= 1.
Proof.
  intros Hn.
  pose proof (sin_lower n ltac:(lra)) as Hl.
  pose proof (sin_lt_x n ltac:(lra)) as Hu.
  split.
  - apply (Rmult_le_reg_r n); [lra|].
    unfold Rdiv; rewrite Rmult_assoc, Rinv_l by lra; lra.
  - apply (Rmult_le_reg_r n); [lra|].
    unfold Rdiv; rewrite Rmult_assoc, Rinv_l by lra; lra.
Qed.

Lemma near_bound (t : R) :
  0 < t <= 1e-8 ->
  let c := cos t in
  let c1 := inv_sin_taylor t in
  let c2 := inv_tan_taylor t in
  let n2 := c1 * c1 - 2 * c1 * c2 * c + c2 * c2 in
  let N := sqrt n2 + EPSILON in
  let A := cos N - sin N / N * c2 in
  let B := sin N / N * c1 in
  0 <= n2 /\ A ^ 2 + 2 * A * (B - 1) * c + (B - 1) ^ 2 <= 1e-12.
Proof.
  intros Ht c c1 c2 n2 N A B.
  assert (Hy : 0 <= t ^ 2 <= 1e-16) by nra.
  pose proof (inv_sin_taylor_bounds t ltac:(lra)) as H1; fold c1 in H1.
  pose proof (inv_tan_taylor_bounds t ltac:(lra)) as H2; fold c2 in H2.
  pose proof (cos_lower t) as Hc; fold c in Hc.
  pose proof (COS_bound t) as Hc'; fold c in Hc'.
  set (y := t ^ 2) in *; clearbody y.
  assert (En : n2 = (c1 - c2) ^ 2 + 2 * c1 * c2 * (1 - c)) by (unfold n2; ring).
  assert (Hn2 : 0 <= n2 <= 1e-7 * 1e-7).
  { rewrite En.
    assert (0 <= c1 - c2 <= 2 * y) by lra.
    assert (0 <= (c1 - c2) ^ 2 <= 2 * y) by nra.
    assert (0 <= c1 * c2 <= 2) by nra.
    assert (0 <= 1 - c <= y / 2) by lra.
    assert (0 <= c1 * c2 * (1 - c) <= y) by nra.
    lra. }
  split; [lra|].
  assert (Hs : 0 <= sqrt n2 <= 1e-7).
  { split; [apply sqrt_pos|].
    rewrite <- (sqrt_square 1e-7) by lra; apply sqrt_le_1; lra. }
  assert (HN : 0 < N <= 2e-7) by (unfold N, EPSILON; lra).
  pose proof (sinc_bounds N ltac:(lra)) as Hu.
  pose proof (cos_lower N) as HcN.
  pose proof (COS_bound N) as HcN'.
  set (u := sin N / N) in *.
  assert (HN2 : 0 <= N ^ 2 <= 1e-13) by nra.
  set (m := N ^ 2) in *.
  assert (HA : - 1e-7 <= A <= 1e-7).
  { unfold A; fold u. clearbody u m.
    assert (1 - m / 6 - y <= u * c2 <= 1) by nra. lra. }
  assert (HB : - 1e-7 <= B - 1 <= 1e-7).
  { unfold B; fold u. clearbody u m.
    assert (1 - m / 6 <= u * c1 <= 1 + y) by nra. lra. }
  clearbody A B c.
  assert (A * A <= 1e-7 * 1e-7) by nra.
  assert ((B - 1) * (B - 1) <= 1e-7 * 1e-7) by nra.
  assert (- (1e-7 * 1e-7) <= A * (B - 1) <= 1e-7 * 1e-7) by nra.
  assert (- (1e-7 * 1e-7) <= A * (B - 1) * c <= 1e-7 * 1e-7) by nra.
  simpl pow; lra.
Qed.

(** ** Vectors of reals *)

Lemma zip_with_ext {A B C} (f g : A -> B -> C) l m :
  (forall a b, f a b = g a b) -> zip_with f l m = zip_with g l m.
Proof.
  intros H; revert m; induction l as [|x l IH]; intros [|y m]; try reflexivity.
  cbn; rewrite H, IH; reflexivity.
Qed.

Lemma zip_with_nested_r {A B C D} (f : B -> C -> D) (g : A -> B -> C) l m :
  zip_with f m (zip_with g l m) = zip_with (fun a b => f b (g a b)) l m.
Proof.
  revert m; induction l as [|x l IH]; intros [|y m]; try reflexivity.
  cbn; rewrite IH; reflexivity.
Qed.

Lemma zip_with_nested_l {A B C D} (f : C -> A -> D) (g : A -> B -> C) l m :
  length l = length m ->
  zip_with f (zip_with g l m) l = zip_with (fun a b => f (g a b) a) l m.
Proof.
  revert m; induction l as [|x l IH]; intros [|y m] H; try reflexivity;
    try discriminate.
  cbn; rewrite IH by (cbn in H; congruence); reflexivity.
Qed.

Lemma Rdot_comm (x y : list R) : Rdot x y = Rdot y x.
Proof.
  unfold Rdot; revert y; induction x as [|a x IH]; intros [|b y];
    try reflexivity.
  cbn [zip_with fold_right]; rewrite IH; ring.
Qed.

Lemma Rdot_lincomb (a b a' b' : R) (x y : list R) :
  length x = length y ->
  Rdot (Rlincomb a b x y) (Rlincomb a' b' x y)
  = a * a' * Rdot x x + (a * b' + a' * b) * Rdot x y + b * b' * Rdot y y.
Proof.
  unfold Rlincomb, Rdot; revert y.
  induction x as [|u x IH]; intros [|w y] H; try discriminate.
  - cbn; ring.
  - cbn [zip_with fold_right]; rewrite IH by (cbn in H; congruence); ring.
Qed.

Lemma Rlincomb_length (a b : R) (x y : list R) :
  length x = length y -> length (Rlincomb a b x y) = length x.
Proof. apply zip_with_length. Qed.

Lemma nth_zip_with_minus (x y : list R) (i : nat) :
  length x = length y ->
  nth i (zip_with Rminus x y) 0 = nth i x 0 - nth i y 0.
Proof.
  revert y i; induction x as [|a x IH]; intros [|b y] i H; try discriminate.
  - destruct i; cbn; lra.
  - destruct i; [reflexivity|]; cbn; apply IH; cbn in H; congruence.
Qed.

Lemma nth_sq_le_Rdot (d : list R) (i : nat) : nth i d 0 * nth i d 0 <= Rdot d d.
Proof.
  revert i; induction d as [|a d IH]; intros i.
  - destruct i; cbn; lra.
  - change (Rdot (a :: d) (a :: d)) with (a * a + Rdot d d).
    pose proof (Rdot_self_nonneg d).
    destruct i; cbn [nth]; [nra | specialize (IH i); nra].
Qed.

Lemma nth_abs_le_Rnorm (d : list R) (i : nat) : Rabs (nth i d 0) <= Rnorm d.
Proof.
  pose proof (nth_sq_le_Rdot d i) as H.
  pose proof (Rnorm_nonneg d) as Hn.
  pose proof (Rnorm_sq d) as Hs; cbn [pow] in Hs; rewrite Rmult_1_r in Hs.
  apply Rabs_le; split; nra.
Qed.

(** ** The angle between two unit vectors *)

Lemma acos_minus_1 : acos (-1) = PI.
Proof. change (-1) with (Ropp 1); rewrite acos_opp, acos_1; lra. Qed.

Lemma Rangle_unit (p q : list R) :
  Rdot p p = 1 -> Rdot q q = 1 ->
  Rangle p q = acos (Rclip (Rdot q p) (-1) 1).
Proof.
  intros Hp Hq; unfold Rangle, Rcos_angle.
  rewrite Hp, Hq, sqrt_1; do 2 f_equal; field.
Qed.

Lemma cos_Rangle_unit (p q : list R) :
  Rdot p p = 1 -> Rdot q q = 1 ->
  0 < Rangle p q < PI ->
  cos (Rangle p q) = Rdot q p.
Proof.
  intros Hp Hq Ha; rewrite (Rangle_unit p q Hp Hq) in *.
  destruct (Rlt_dec 1 (Rdot q p)) as [H1 | H1].
  - exfalso; revert Ha; unfold Rclip, Rmin, Rmax.
    destruct (Rle_dec (Rdot q p) (-1)); [lra|].
    destruct (Rle_dec (Rdot q p) 1); [lra|].
    rewrite acos_1; lra.
  - destruct (Rlt_dec (Rdot q p) (-1)) as [H2 | H2].
    + exfalso; revert Ha; unfold Rclip, Rmin, Rmax.
      destruct (Rle_dec (Rdot q p) (-1)); [|lra].
      destruct (Rle_dec (-1) 1); [|lra].
      rewrite acos_minus_1; lra.
    + rewrite Rclip_id by lra; apply cos_acos; lra.
Qed.

(** ** The logarithm away from angle zero *)

Lemma log_coef_1_fin (x : R) :
  0 < x < PI -> log_coef_1 (Fin x) = Fin (Rlog_coef_1 x).
Proof.
  intros Hx; pose proof (sin_gt_0 x ltac:(lra) ltac:(lra)) as Hs.
  unfold Rlog_coef_1, Rleb; destruct (Rle_dec x 1e-8).
  - apply log_coef_1_near; lra.
  - apply log_coef_1_far; lra.
Qed.

Lemma log_coef_2_fin (x : R) :
  0 < x < PI -> log_coef_2 (Fin x) = Fin (Rlog_coef_2 x).
Proof.
  intros Hx; pose proof (sin_gt_0 x ltac:(lra) ltac:(lra)) as Hs.
  unfold Rlog_coef_2, Rleb; destruct (Rle_dec x 1e-8).
  - apply log_coef_2_near; lra.
  - apply log_coef_2_far; lra.
Qed.

(** For two finite points at an angle strictly between 0 and pi, [log] is
    [coef_1 * point - coef_2 * base_point] with the coefficients the claim
    C1 gives. *)
Lemma log_point_fins (p q : list R) :
  0 < Rdot p p -> 0 < Rdot q q ->
  0 < Rangle p q < PI ->
  HypersphereMetric.log (Arr1 (fins p)) (Arr1 (fins q))
  = Arr2 (length (fins p))
         [fins (Rlincomb (Rlog_coef_1 (Rangle p q))
                         (- Rlog_coef_2 (Rangle p q)) p q)].
Proof.
  intros Hp Hq Ha.
  rewrite log_point, angle_of_fins by assumption.
  rewrite log_coef_1_fin, log_coef_2_fin by assumption.
  rewrite lincomb_sub_fins; unfold Rlincomb; do 3 f_equal.
  apply zip_with_ext; intros; ring.
Qed.

Lemma exp_row_fins (tangent_vec : ndarray) (v p : list R) :
  rows_of tangent_vec = [fins v] ->
  HypersphereMetric.exp tangent_vec (Arr1 (fins p))
  = Arr2 (length (fins p)) [fins (exp_shifted_norm v p)].
Proof.
  intros H; rewrite <- exp_point_fins.
  destruct tangent_vec as [x | w | k rows]; cbn [rows_of] in H.
  - injection H as H; rewrite <- H; reflexivity.
  - injection H as ->; reflexivity.
  - subst rows; reflexivity.
Qed.

(** ** The round trip [exp (log p q) q] *)

(** The squared distance between [exp (log p q) q] and [p], in terms of
    the angle alone: both the shift by [EPSILON] and the truncation of the
    Taylor polynomials stay far below the tolerance. *)
Lemma round_trip_residual (t : R) :
  0 < t < PI ->
  let c := cos t in
  let c1 := Rlog_coef_1 t in
  let c2 := Rlog_coef_2 t in
  let n2 := c1 * c1 - 2 * c1 * c2 * c + c2 * c2 in
  let N := sqrt n2 + EPSILON in
  let A := cos N - sin N / N * c2 in
  let B := sin N / N * c1 in
  0 <= n2 /\ (B - 1) * (B - 1) + 2 * (B - 1) * A * c + A * A <= 1e-12.
Proof.
  intros Ht; unfold Rlog_coef_1, Rlog_coef_2, Rleb.
  destruct (Rle_dec t 1e-8) as [Hnear | Hfar]; cbn zeta.
  - destruct (near_bound t ltac:(lra)) as [H0 H]; cbn zeta in H0, H.
    split; [exact H0|].
    cbn [pow] in H; rewrite !Rmult_1_r in H; lra.
  - pose proof (sin_gt_0 t ltac:(lra) ltac:(lra)) as Hs.
    pose proof (sin2_cos2 t) as Hsc; unfold Rsqr in Hsc.
    set (s := sin t) in *; set (c := cos t) in *.
    assert (En : t / s * (t / s) - 2 * (t / s) * (t * c / s) * c
                 + t * c / s * (t * c / s) = t * t).
    { transitivity (t * t * (1 - c * c) / (s * s)); [field; lra|].
      replace (1 - c * c) with (s * s) by lra; field; lra. }
    rewrite En, sqrt_square by lra.
    split; [nra|].
    pose proof (far_bound t ltac:(lra)) as Hb; fold c s in Hb.
    set (N := t + EPSILON) in *.
    set (u := sin N / N) in *.
    assert (E : (u * (t / s) - 1) * (u * (t / s) - 1)
                + 2 * (u * (t / s) - 1) * (cos N - u * (t * c / s)) * c
                + (cos N - u * (t * c / s)) * (cos N - u * (t * c / s))
                = (cos N - c) ^ 2 + (u * t - s) ^ 2).
    { transitivity ((cos N - c) ^ 2
                    + (u * t - s) ^ 2 * ((1 - c * c) / (s * s)));
        [field; lra|].
      replace (1 - c * c) with (s * s) by lra; field; lra. }
    rewrite E; unfold EPSILON in Hb; cbn [pow] in *; lra.
Qed.

(** In exact arithmetic, for unit-norm points [p] and [q] whose angle
    lies strictly between 0 and pi, [exp (log p q) q] is a point within
    [1e-6] of [p], in Euclidean distance and hence in every coordinate:
    the shift by [EPSILON] and the truncation of the Taylor polynomials
    cost less than the tolerance.  What the cancellation in the cosine
    does to angles close to 0 and to pi is a matter of rounding, which
    is not represented. *)
Lemma exp_log_round_trip_exact (p q : list R) :
  length p = length q ->
  Rdot p p = 1 ->
  Rdot q q = 1 ->
  0 < Rangle p q < PI ->
  exists r : list R,
    HypersphereMetric.exp
      (HypersphereMetric.log (Arr1 (fins p)) (Arr1 (fins q)))
      (Arr1 (fins q))
    = Arr2 (length q) [fins r]
    /\ length r = length p
    /\ Rdist r p <= 1e-6
    /\ forall i : nat, Rabs (nth i r 0 - nth i p 0) <= 1e-6.
Proof.
  intros Hlen Hp Hq Ha.
  pose proof (cos_Rangle_unit p q Hp Hq Ha) as Hc.
  rewrite (log_point_fins p q) by (rewrite ?Hp, ?Hq; lra || assumption).
  set (t := Rangle p q) in *.
  set (c1 := Rlog_coef_1 t); set (c2 := Rlog_coef_2 t).
  set (v := Rlincomb c1 (- c2) p q).
  rewrite (exp_row_fins _ v q) by reflexivity.
  destruct (round_trip_residual t Ha) as [Hn2 Hres]; cbn zeta in Hn2, Hres.
  fold c1 c2 in Hn2, Hres.
  assert (Ev : Rdot v v = c1 * c1 - 2 * c1 * c2 * cos t + c2 * c2).
  { unfold v; rewrite Rdot_lincomb by assumption.
    rewrite Hp, Hq, (Rdot_comm p q), <- Hc; ring. }
  set (N := sqrt (c1 * c1 - 2 * c1 * c2 * cos t + c2 * c2) + EPSILON) in *.
  set (u := sin N / N) in *.
  assert (Er : exp_shifted_norm v q = Rlincomb (u * c1) (cos N - u * c2) p q).
  { unfold exp_shifted_norm, Rnorm; rewrite Ev; fold N; fold u.
    unfold v, Rlincomb; rewrite zip_with_nested_r.
    apply zip_with_ext; intros; ring. }
  assert (Ed : zip_with Rminus (exp_shifted_norm v q) p
               = Rlincomb (u * c1 - 1) (cos N - u * c2) p q).
  { rewrite Er; unfold Rlincomb; rewrite zip_with_nested_l by assumption.
    apply zip_with_ext; intros; ring. }
  assert (Hd : Rdist (exp_shifted_norm v q) p <= 1e-6).
  { unfold Rdist, Rnorm; rewrite Ed, Rdot_lincomb by assumption.
    rewrite Hp, Hq, (Rdot_comm p q), <- Hc.
    rewrite <- (sqrt_square 1e-6) by lra; apply sqrt_le_1_alt.
    replace (1e-6 * 1e-6) with 1e-12 by lra.
    etransitivity; [|exact Hres]; right; ring. }
  exists (exp_shifted_norm v q); split; [|split; [|split]].
  - unfold fins; rewrite length_map; reflexivity.
  - rewrite Er, Rlincomb_length; [reflexivity | assumption].
  - exact Hd.
  - intros i; rewrite <- nth_zip_with_minus
      by (rewrite Er, Rlincomb_length; [reflexivity | assumption]).
    etransitivity; [apply nth_abs_le_Rnorm | exact Hd].
Qed.

(** * Further properties of the metric and of the manifold *)

(** ** The geodesic distance *)

Lemma nmul_comm (x y : num) : nmul x y = nmul y x.
Proof. destruct x, y; cbn; try reflexivity; f_equal; ring. Qed.

Lemma zip_with_comm {A B} (f : A -> A -> B) (l m : list A) :
  (forall a b, f a b = f b a) -> zip_with f l m = zip_with f m l.
Proof.
  intros H; revert m; induction l as [|x l IH]; intros [|y m];
    try reflexivity.
  cbn; rewrite H, IH; reflexivity.
Qed.

Lemma dot_comm (a b : list num) :
  EuclideanMetric.dot a b = EuclideanMetric.dot b a.
Proof.
  unfold EuclideanMetric.dot; rewrite (zip_with_comm nmul a b nmul_comm).
  reflexivity.
Qed.

Lemma inner_product_comm (a b : ndarray) :
  EuclideanMetric.inner_product a b = EuclideanMetric.inner_product b a.
Proof. unfold EuclideanMetric.inner_product; apply zip_with_comm, dot_comm. Qed.

(** X1.  The geodesic distance is symmetric, on every pair of arrays,
    non-finite entries included. *)
Theorem dist_symmetric (point_a point_b : ndarray) :
  HypersphereMetric.dist point_a point_b
  = HypersphereMetric.dist point_b point_a.
Proof.
  unfold HypersphereMetric.dist.
  rewrite (inner_product_comm point_a point_b).
  rewrite (zip_with_comm nmul (EuclideanMetric.norm point_a)
                         (EuclideanMetric.norm point_b) nmul_comm).
  reflexivity.
Qed.

Lemma narccos_clip_range (x : num) :
  narccos (clip x (-1) 1) = NaN
  \/ exists t, narccos (clip x (-1) 1) = Fin t /\ 0 <= t <= PI.
Proof.
  destruct x as [a | | |]; cbn [clip narccos]; [| | |left; reflexivity].
  - fold (Rclip a (-1) 1).
    destruct (Rclip_bounds a (-1) 1 ltac:(lra)).
    rewrite !Rleb_true by assumption; right; eexists; split;
      [reflexivity | apply acos_bound].
  - rbool; right; eexists; split; [reflexivity | apply acos_bound].
  - assert (E : Rmin (-1) 1 = -1) by (unfold Rmin; destruct (Rle_dec (-1) 1); lra).
    rewrite E; rbool; right; eexists; split; [reflexivity | apply acos_bound].
Qed.

(** X2.  Every entry that [dist] returns is either NaN or an angle of
    [[0, pi]]: the clip keeps the arc cosine inside its domain, so no
    infinity and no value outside that interval ever comes out. *)
Theorem dist_range (point_a point_b : ndarray) :
  Forall (fun d => d = NaN \/ exists t, d = Fin t /\ 0 <= t <= PI)
         (HypersphereMetric.dist point_a point_b).
Proof.
  unfold HypersphereMetric.dist; rewrite map_map.
  apply Forall_forall; intros d Hd.
  apply in_map_iff in Hd as (x & <- & _); apply narccos_clip_range.
Qed.

Lemma Rdot_self_zero (p q : list R) : Rdot p p = 0 -> Rdot q p = 0.
Proof.
  revert q; induction p as [|x p IH]; intros q H.
  - destruct q; reflexivity.
  - change (Rdot (x :: p) (x :: p)) with (x * x + Rdot p p) in H.
    pose proof (Rdot_self_nonneg p) as Hp.
    assert (Hx : x = 0) by nra.
    destruct q as [|y q]; [reflexivity|].
    change (Rdot (y :: q) (x :: p)) with (y * x + Rdot q p).
    rewrite IH by nra; subst x; ring.
Qed.

Lemma angle_of_zero_norm (p q : list R) :
  Rdot p p = 0 ->
  angle_of (fins p) (fins q) = NaN /\ angle_of (fins q) (fins p) = NaN.
Proof.
  intros H; unfold angle_of; rewrite !dot_fins.
  rewrite (Rdot_self_zero p q H), (Rdot_comm p q), (Rdot_self_zero p q H), H.
  cbn [nsqrt]; rewrite (Rltb_false 0 0) by lra.
  pose proof (Rdot_self_nonneg q).
  rewrite (Rltb_false (Rdot q q) 0) by lra.
  cbn [nmul ndiv]; rewrite sqrt_0, Rmult_0_r, Rmult_0_l.
  rewrite !Reqb_true by reflexivity; split; reflexivity.
Qed.

(** ** Zero vectors *)

Lemma log_coef_nan : log_coef_1 NaN = NaN /\ log_coef_2 NaN = NaN.
Proof. split; reflexivity. Qed.

(** X6.  A zero vector has no direction: taken as point or as base
    point, it makes [dist] return NaN and [log] return NaN in every
    coordinate, without any error being raised. *)
Theorem zero_vector_gives_nan (p q : list R) :
  length p = length q ->
  Rdot p p = 0 ->
  HypersphereMetric.dist (Arr1 (fins p)) (Arr1 (fins q)) = [NaN]
  /\ HypersphereMetric.dist (Arr1 (fins q)) (Arr1 (fins p)) = [NaN]
  /\ HypersphereMetric.log (Arr1 (fins p)) (Arr1 (fins q))
     = Arr2 (length p) [map (fun _ => NaN) p]
  /\ HypersphereMetric.log (Arr1 (fins q)) (Arr1 (fins p))
     = Arr2 (length q) [map (fun _ => NaN) q].
Proof.
  intros Hl Hp; destruct (angle_of_zero_norm p q Hp) as [E1 E2].
  rewrite !dist_point, !log_point, E1, E2.
  destruct log_coef_nan as [-> ->].
  rewrite !nan_rows by (unfold fins; rewrite !length_map; congruence).
  unfold fins; rewrite !length_map, !map_map; repeat split; reflexivity.
Qed.

Lemma zero_vector_gives_nan_witness :
  HypersphereMetric.dist (Arr1 (fins [0; 0])) (Arr1 (fins [1; 0])) = [NaN]
  /\ HypersphereMetric.dist (Arr1 (fins [1; 0])) (Arr1 (fins [0; 0])) = [NaN]
  /\ HypersphereMetric.log (Arr1 (fins [0; 0])) (Arr1 (fins [1; 0]))
     = Arr2 2 [map (fun _ => NaN) [0; 0]]
  /\ HypersphereMetric.log (Arr1 (fins [1; 0])) (Arr1 (fins [0; 0]))
     = Arr2 2 [map (fun _ => NaN) [1; 0]].
Proof.
  apply (zero_vector_gives_nan [0; 0] [1; 0]).
  - reflexivity.
  - unfold Rdot; cbn [zip_with fold_right]; lra.
Defined.

(** ** Projection to the tangent space *)

Lemma tangent_rows (vector base_point : ndarray) (v b : list num) :
  rows_of vector = [v] -> rows_of base_point = [b] ->
  Hypersphere.projection_to_tangent_space vector base_point
  = Arr2 (shape_last vector)
         [zip_with nsub v
            (map (nmul (ndiv (EuclideanMetric.dot b v)
                             (EuclideanMetric.dot b b))) b)].
Proof.
  intros Hv Hb; unfold Hypersphere.projection_to_tangent_space.
  rewrite shape_last_to_ndarray_2, !rows_of_to_ndarray_2, squared_norm_rows.
  unfold EuclideanMetric.inner_product.
  rewrite !to_ndarray_2_idem, !rows_of_to_ndarray_2, Hv, Hb; reflexivity.
Qed.

(** X8.  At the zero base point the coefficient is [0/0]: the projection
    to the tangent space is NaN in every coordinate. *)
Theorem tangent_projection_zero_base_point (v b : list R) :
  length v = length b ->
  Rdot b b = 0 ->
  Hypersphere.projection_to_tangent_space (Arr1 (fins v)) (Arr1 (fins b))
  = Arr2 (length v) [map (fun _ => NaN) v].
Proof.
  intros Hl Hb.
  rewrite (tangent_rows (Arr1 (fins v)) (Arr1 (fins b)) (fins v) (fins b)
                       eq_refl eq_refl).
  rewrite !dot_fins, Hb, (Rdot_comm b v), (Rdot_self_zero b v Hb).
  cbn [ndiv shape_last]; rewrite !Reqb_true by reflexivity.
  unfold fins; rewrite length_map; do 2 f_equal.
  clear Hb; revert b Hl; induction v as [|x v IH]; intros [|y b] Hl;
    try discriminate; [reflexivity|].
  cbn [map zip_with nmul nsub nopp nadd]; f_equal; apply IH.
  cbn in Hl; congruence.
Qed.

Lemma tangent_projection_zero_base_point_witness :
  Hypersphere.projection_to_tangent_space
    (Arr1 (fins [1; 2])) (Arr1 (fins [0; 0]))
  = Arr2 2 [map (fun _ => NaN) [1; 2]].
Proof.
  apply (tangent_projection_zero_base_point [1; 2] [0; 0]).
  - reflexivity.
  - unfold Rdot; cbn [zip_with fold_right]; lra.
Defined.

(** ** Membership, again *)

(** X9.  [belongs] raises on an array of no axis, whose shape has no
    last entry, and on no other array.  On an array of at least one axis
    it answers with the constant [False] on every mismatch of the last
    dimension; it is true exactly on the points of [dimension + 1]
    coordinates whose squared norm is within the tolerance of 1; and it
    logs its one warning exactly when the point has [dimension]
    coordinates and [dimension] is at most 256. *)
Theorem belongs_characterisation
        (dimension : nat) (point : ndarray) (tolerance : R) :
  (ndim point = 0%nat <->
   outcome (Hypersphere.belongs dimension point tolerance) = Raise IndexError)
  /\ (ndim point <> 0%nat ->
      exists mask,
        outcome (Hypersphere.belongs dimension point tolerance) = Return mask
        /\ (gs_all mask = true <->
            shape_last point = (dimension + 1)%nat
            /\ Forall (fun sq =>
                         nle (nabs (nsub sq (Fin 1))) (Fin tolerance) = true)
                      (EuclideanMetric.squared_norm point))
        /\ (shape_last point <> (dimension + 1)%nat -> mask = PyBool false)
        /\ (warnings (Hypersphere.belongs dimension point tolerance)
            = if ((shape_last point =? dimension)%nat
                  && (dimension <=? SMALL_INT_MAX)%nat)%bool
              then [intrinsic_warning] else [])).
Proof.
  split; [|apply belongs_spec].
  split.
  - destruct point; try discriminate; reflexivity.
  - intros H; destruct (Nat.eq_dec (ndim point) 0) as [E | E]; [exact E|].
    destruct (belongs_spec dimension point tolerance E) as (mask & Hm & _).
    rewrite Hm in H; discriminate H.
Qed.

(** A batch of two points of 2 coordinates tested on the 2-sphere: the
    answer is [False] and the warning is logged; a number alone raises. *)
Lemma belongs_characterisation_witness :
  (exists mask,
      outcome (Hypersphere.belongs
                 2 (Arr2 2 [[Fin 1; Fin 0]; [Fin 0; Fin 1]]) TOLERANCE)
      = Return mask
      /\ mask = PyBool false
      /\ warnings (Hypersphere.belongs
                     2 (Arr2 2 [[Fin 1; Fin 0]; [Fin 0; Fin 1]]) TOLERANCE)
         = [intrinsic_warning])
  /\ outcome (Hypersphere.belongs 2 (Arr0 (Fin 1)) TOLERANCE)
     = Raise IndexError.
Proof.
  split.
  - destruct (proj2 (belongs_characterisation
                       2 (Arr2 2 [[Fin 1; Fin 0]; [Fin 0; Fin 1]]) TOLERANCE))
      as (mask & Hm & _ & Hf & Hw).
    + discriminate.
    + exists mask; split; [exact Hm|]; split.
      * apply Hf; cbn; lia.
      * exact Hw.
  - apply (proj1 (belongs_characterisation 2 (Arr0 (Fin 1)) TOLERANCE)).
    reflexivity.
Defined.



(** ** Projection and regularisation *)

(** X15.  Whatever [regularize] returns belongs to the hypersphere: when
    [belongs] is true of every point of a batch, [regularize] raises
    nothing, logs nothing, and returns a batch of as many points of
    [dimension + 1] coordinates, of every one of which [belongs] is true
    again. *)
Theorem regularize_result_belongs
        (dimension : nat) (point : ndarray) (mask : pybools) :
  outcome (Hypersphere.belongs dimension point TOLERANCE) = Return mask ->
  gs_all mask = true ->
  exists q,
    Hypersphere.regularize dimension point = ([], Return q)
    /\ shape_last q = (dimension + 1)%nat
    /\ length (rows_of q) = length (rows_of point)
    /\ Hypersphere.belongs dimension q TOLERANCE
       = ([], Return (BoolArr (map (fun _ => true) (rows_of point)))).
Proof.
  intros Hm Hall.
  destruct (belongs_true_inv dimension point TOLERANCE mask Hm Hall)
    as (Hnd & Hk & rows & Hrows & Hin).
  exists (Arr2 (dimension + 1) (map fins (map Rnormalize rows))).
  split; [apply regularize_fins; assumption|].
  split; [reflexivity|]; split.
  - cbn [rows_of]; rewrite Hrows, !length_map; reflexivity.
  - rewrite (belongs_fins dimension _ (map Rnormalize rows))
      by (discriminate || reflexivity).
    rewrite Hrows, !map_map; do 3 f_equal.
    apply map_ext_in; intros r Hr.
    rewrite Forall_forall in Hin; specialize (Hin r Hr).
    rewrite Rdot_normalize.
    + rewrite Rminus_diag, Rabs_R0; apply Rleb_true; unfold TOLERANCE; lra.
    + apply within_one_pos; exact Hin.
Qed.

(** Two points of the 1-sphere. *)
Lemma regularize_result_belongs_witness :
  exists q,
    Hypersphere.regularize 1 (Arr2 2 (map fins [[0.6; 0.8]; [0; -1]]))
    = ([], Return q)
    /\ shape_last q = (1 + 1)%nat
    /\ length (rows_of q)
       = length (rows_of (Arr2 2 (map fins [[0.6; 0.8]; [0; -1]])))
    /\ Hypersphere.belongs 1 q TOLERANCE
       = ([], Return
                (BoolArr
                   (map (fun _ => true)
                        (rows_of (Arr2 2 (map fins [[0.6; 0.8]; [0; -1]])))))).
Proof.
  apply (regularize_result_belongs
           1 (Arr2 2 (map fins [[0.6; 0.8]; [0; -1]]))
           (BoolArr [true; true])).
  - rewrite (belongs_fins 1 _ [[0.6; 0.8]; [0; -1]])
      by (discriminate || reflexivity).
    cbn [map outcome snd].
    replace (Rdot [0.6; 0.8] [0.6; 0.8] - 1) with 0 by rdot.
    replace (Rdot [0; -1] [0; -1] - 1) with 0 by rdot.
    rewrite Rabs_R0, Rleb_true by (unfold TOLERANCE; lra); reflexivity.
  - reflexivity.
Defined.

(** ** The exponential, again *)






(** ** Uniform samples *)

(** X21.  On a hypersphere of dimension at most 4, every sample of
    [random_uniform] has a first coordinate that is not negative and all
    other coordinates in [[-0.5, 0.5)]: the samples cover a patch of the
    upper hemisphere only. *)
Theorem random_uniform_upper_patch (n : nat) (draws : list (list R)) :
  (n <= 4)%nat ->
  Forall (fun d => length d = n /\ Forall (fun u => 0 <= u < 1) d) draws ->
  exists rows : list (list R),
    Hypersphere.random_uniform n draws = Arr2 (1 + n) (map fins rows)
    /\ length rows = length draws
    /\ Forall (fun r => exists c x,
                  r = c :: x /\ length x = n /\ 0 <= c
                  /\ Forall (fun xi => -0.5 <= xi < 0.5) x) rows.
Proof.
  intros Hn Hd; exists (map (fun d => Rlift (Rshift d)) draws).
  split; [|split].
  - apply random_uniform_fins.
    eapply Forall_impl; [|exact Hd]; cbn beta; intros d [Hl Hu].
    pose proof (Rshift_bound d Hu) as B; rewrite Hl in B.
    apply le_INR in Hn; cbn [INR] in Hn; lra.
  - apply length_map.
  - apply Forall_forall; intros r Hr.
    apply in_map_iff in Hr as (d & <- & Hin).
    rewrite Forall_forall in Hd; destruct (Hd d Hin) as [Hl Hu].
    exists (sqrt (1 - Rnorm (Rshift d) ^ 2)), (Rshift d).
    split; [reflexivity|]; split; [|split].
    + unfold Rshift; rewrite length_map; assumption.
    + apply sqrt_pos.
    + unfold Rshift; apply Forall_forall; intros x Hx.
      apply in_map_iff in Hx as (u & <- & Hu').
      rewrite Forall_forall in Hu; specialize (Hu u Hu'); lra.
Qed.

Lemma random_uniform_upper_patch_witness :
  exists rows : list (list R),
    Hypersphere.random_uniform 2 [[0; 0.5]] = Arr2 (1 + 2) (map fins rows)
    /\ length rows = length [[0; 0.5]]
    /\ Forall (fun r => exists c x,
                  r = c :: x /\ length x = 2%nat /\ 0 <= c
                  /\ Forall (fun xi => -0.5 <= xi < 0.5) x) rows.
Proof.
  apply (random_uniform_upper_patch 2 [[0; 0.5]]).
  - lia.
  - repeat constructor; lra.
Defined.
